(** * Bug tracker: validation rules, request handlers and client state

    A shallow embedding of the bug-tracker sources

    - [server/src/utils/bugUtils.js]            (module [BugUtils]),
    - [server/src/models/Bug.js]                (module [BugModel]),
    - [server/src/controllers/bugController.js] (modules [BugController]
                                                 and [BugHandlers]),
    - [server/src/utils/dateUtils.js]           (module [DateUtils]),
    - [server/src/middleware]                   (module [Middleware]),
    - [client/src/context/BugContext.jsx]       (module [BugContext]),
    - [client/src/services/bugService.js]       (module [BugService]),
    - [client/src/components]                   (module [Components]),

    over a small model of the JavaScript values these functions observe
    (module [JS]) and of the store they talk to (module [Store]).
    Definitions come first, theorems follow. *)

From Stdlib Require Import NArith ZArith List Bool String Ascii Lia.
Import ListNotations.

Set Implicit Arguments.
Set Warnings "-register-all".

(* ===================================================================== *)
(** * JavaScript values                                                   *)
(* ===================================================================== *)

Module JS.

(** A JavaScript string is a sequence of UTF-16 code units. *)
Definition code_unit := N.
Definition jstring := list code_unit.

(** String literals of the sources are written [lit "..."]. *)
Definition lit (s : string) : jstring :=
  List.map N_of_ascii (list_ascii_of_string s).

Fixpoint jstr_eqb (a b : jstring) : bool :=
  match a, b with
  | [], [] => true
  | x :: a', y :: b' => N.eqb x y && jstr_eqb a' b'
  | _, _ => false
  end.

(** [s.length]. *)
Definition str_length (s : jstring) : Z := Z.of_nat (List.length s).

(** ECMAScript WhiteSpace and LineTerminator code units, the ones
    [String.prototype.trim] strips. *)
Definition is_whitespace (c : code_unit) : bool :=
  ((9 <=? c) && (c <=? 13) || (c =? 32) || (c =? 160) || (c =? 5760)
   || (8192 <=? c) && (c <=? 8202)
   || (c =? 8232) || (c =? 8233) || (c =? 8239) || (c =? 8287)
   || (c =? 12288) || (c =? 65279))%N.

Fixpoint trim_start (s : jstring) : jstring :=
  match s with
  | [] => []
  | c :: rest => if is_whitespace c then trim_start rest else s
  end.

Definition trim_end (s : jstring) : jstring := rev (trim_start (rev s)).

(** [s.trim()]. *)
Definition trim (s : jstring) : jstring := trim_end (trim_start s).

(** [parts.join(sep)] on an array of strings. *)
Fixpoint join (sep : jstring) (parts : list jstring) : jstring :=
  match parts with
  | [] => []
  | [p] => p
  | p :: rest => p ++ sep ++ join sep rest
  end.

(** Numbers.  The functions below observe a number only through
    ToBoolean and through its rendering as a property key, so a finite
    non-integral number is carried by that rendering: an optional sign, a
    leading decimal digit and the remaining characters. *)
Inductive number :=
| NaN
| Infinity (neg : bool)
| Int (z : Z)
| Dec (neg : bool) (lead : N) (rest : jstring).

Inductive value :=
| VUndefined
| VNull
| VBool (b : bool)
| VNum (n : number)
| VStr (s : jstring)
| VArr (elems : list value)                 (* an array *)
| VObj (props : list (jstring * value))     (* a plain object, own properties in order *)
| VFun (name : jstring).                    (* the built-in Object.prototype[name] *)

(** ToBoolean. *)
Definition to_boolean (v : value) : bool :=
  match v with
  | VUndefined | VNull => false
  | VBool b => b
  | VNum NaN => false
  | VNum (Int z) => negb (z =? 0)%Z
  | VNum _ => true
  | VStr s => negb (jstr_eqb s [])
  | VArr _ | VObj _ | VFun _ => true
  end.

(** [a || b]. *)
Definition js_or (a b : value) : value := if to_boolean a then a else b.

(** [typeof v === 'string']. *)
Definition is_string (v : value) : bool :=
  match v with VStr _ => true | _ => false end.

(** Decimal digits of a natural number, most significant first. *)
Fixpoint digits_aux (fuel : nat) (n : N) (acc : jstring) : jstring :=
  match fuel with
  | O => acc
  | S fuel' =>
      let acc' := (48 + n mod 10)%N :: acc in
      if (n / 10 =? 0)%N then acc' else digits_aux fuel' (n / 10)%N acc'
  end.

Definition digits (n : N) : jstring := digits_aux (S (N.size_nat n)) n [].

Definition minus_sign : code_unit := 45%N.

(** Number::toString (radix 10). *)
Definition number_to_string (n : number) : jstring :=
  match n with
  | NaN => lit "NaN"
  | Infinity false => lit "Infinity"
  | Infinity true => lit "-Infinity"
  | Int z => if (z <? 0)%Z then minus_sign :: digits (Z.to_N (- z))
             else digits (Z.to_N z)
  | Dec neg lead rest =>
      let body := (48 + lead mod 10)%N :: rest in
      if neg then minus_sign :: body else body
  end.

(** Exceptions: [name], [message] and, for a store validation error, the
    messages of [Object.values(error.errors)]. *)
Record exn := mkExn {
  ename : jstring;
  emessage : jstring;
  eerrors : list jstring
}.

Definition TypeError (msg : string) : exn := mkExn (lit "TypeError") (lit msg) [].
Definition RangeError (msg : string) : exn := mkExn (lit "RangeError") (lit msg) [].
Definition Error (msg : jstring) : exn := mkExn (lit "Error") msg [].

(** A computation either returns or throws. *)
Inductive result (A : Type) :=
| Ok (a : A)
| Throw (e : exn).

Arguments Ok {A} a.
Arguments Throw {A} e.

Definition bind {A B} (r : result A) (k : A -> result B) : result B :=
  match r with
  | Ok a => k a
  | Throw e => Throw e
  end.

(** The first binding of a key in a property list. *)
Fixpoint own_property (props : list (jstring * value)) (k : jstring)
  : option value :=
  match props with
  | [] => None
  | (k', v) :: rest => if jstr_eqb k' k then Some v else own_property rest k
  end.

(** The properties every plain object inherits from [Object.prototype].
    The function values of this model are their initial values: [VFun k]
    is the built-in [Object.prototype[k]]; a [VFun] of any other name
    stands for no function object. *)
Definition object_prototype_methods : list jstring :=
  [ lit "constructor"; lit "__defineGetter__"; lit "__defineSetter__";
    lit "hasOwnProperty"; lit "__lookupGetter__"; lit "__lookupSetter__";
    lit "isPrototypeOf"; lit "propertyIsEnumerable"; lit "toString";
    lit "valueOf"; lit "toLocaleString" ].

Definition is_method (k : jstring) : bool :=
  existsb (jstr_eqb k) object_prototype_methods.

Definition inherited (k : jstring) : value :=
  if is_method k then VFun k
  else if jstr_eqb k (lit "__proto__") then VObj []   (* Object.prototype itself *)
  else VUndefined.

(** [obj.k] and [obj['k']] on an object literal with own properties
    [props]: own properties are searched first, then [Object.prototype]. *)
Definition property (props : list (jstring * value)) (k : jstring) : value :=
  match own_property props k with
  | Some v => v
  | None => inherited k
  end.

(** What a conversion method gives when OrdinaryToPrimitive calls it on a
    plain object: a primitive, kept as its ToString rendering; something
    that is no primitive; or an exception. *)
Inductive outcome :=
| Text (s : jstring)
| NotPrimitive
| Raised (e : exn).

Definition bool_text (b : bool) : jstring :=
  if b then lit "true" else lit "false".

Definition has_own (props : list (jstring * value)) (k : jstring) : bool :=
  match own_property props k with Some _ => true | None => false end.

(** The built-in [Object.prototype[name]] called without arguments on the
    plain object with own properties [props], for every name but
    [toLocaleString].  An absent argument is [undefined], the property key
    ["undefined"]; the last branch is [__defineGetter__] and
    [__defineSetter__], which throw when their second argument is no
    function. *)
Definition call_own_method (name : jstring) (props : list (jstring * value))
  : outcome :=
  if jstr_eqb name (lit "toString") then Text (lit "[object Object]")
  else if jstr_eqb name (lit "valueOf") then NotPrimitive        (* the object *)
  else if jstr_eqb name (lit "constructor") then NotPrimitive    (* a new object *)
  else if jstr_eqb name (lit "hasOwnProperty")
          || jstr_eqb name (lit "propertyIsEnumerable")
       then Text (bool_text (has_own props (lit "undefined")))
  else if jstr_eqb name (lit "isPrototypeOf") then Text (lit "false")
  else if jstr_eqb name (lit "__lookupGetter__")
          || jstr_eqb name (lit "__lookupSetter__")
       then Text (lit "undefined")
  else Raised (TypeError "Object.prototype.__defineGetter__: Expecting function").

(** The same for every name.  [toLocaleString] calls [this.toString()];
    when the object's [toString] is [toLocaleString] again the calls never
    end and the engine throws a RangeError. *)
Definition call_method (name : jstring) (props : list (jstring * value))
  : outcome :=
  if jstr_eqb name (lit "toLocaleString") then
    match property props (lit "toString") with
    | VFun g =>
        if negb (is_method g) then Raised (TypeError "this.toString is not a function")
        else if jstr_eqb g (lit "toLocaleString")
             then Raised (RangeError "Maximum call stack size exceeded")
             else call_own_method g props
    | _ => Raised (TypeError "this.toString is not a function")
    end
  else call_own_method name props.

(** One round of OrdinaryToPrimitive: [Get(O, k)], and the call when the
    value is callable. *)
Definition try_method (props : list (jstring * value)) (k : jstring) : outcome :=
  match property props k with
  | VFun name => if is_method name then call_method name props else NotPrimitive
  | _ => NotPrimitive
  end.

(** ToString on a plain object: ToPrimitive with hint string tries
    [toString], then [valueOf], and throws when neither gives a
    primitive. *)
Definition object_to_string (props : list (jstring * value)) : result jstring :=
  match try_method props (lit "toString") with
  | Text s => Ok s
  | Raised e => Throw e
  | NotPrimitive =>
      match try_method props (lit "valueOf") with
      | Text s => Ok s
      | Raised e => Throw e
      | NotPrimitive => Throw (TypeError "Cannot convert object to primitive value")
      end
  end.

(** ToString, which ToPropertyKey applies to a key that is no symbol.  An
    array renders as its elements joined by commas ([undefined] and [null]
    elements render empty); a plain object renders through its [toString]
    and [valueOf] members, and throws without a usable one. *)
Fixpoint to_string (v : value) : result jstring :=
  match v with
  | VUndefined => Ok (lit "undefined")
  | VNull => Ok (lit "null")
  | VBool b => Ok (bool_text b)
  | VNum n => Ok (number_to_string n)
  | VStr s => Ok s
  | VArr elems =>
      bind
        ((fix each (l : list value) : result (list jstring) :=
            match l with
            | [] => Ok []
            | e :: rest =>
                bind (match e with
                      | VUndefined | VNull => Ok []
                      | _ => to_string e
                      end) (fun s =>
                bind (each rest) (fun ss => Ok (s :: ss)))
            end) elems)
        (fun parts => Ok (join (lit ",") parts))
  | VObj props => object_to_string props
  | VFun name => Ok (lit "function " ++ name ++ lit "() { [native code] }")
  end.

(** SameValueZero, the comparison of [Array.prototype.includes].  Objects
    compare by reference; the arrays searched below hold strings only, and
    an object is never the same value as a string. *)
Definition number_eqb (x y : number) : bool :=
  match x, y with
  | NaN, NaN => true
  | Infinity a, Infinity b => Bool.eqb a b
  | Int a, Int b => (a =? b)%Z
  | Dec s d r, Dec s' d' r' =>
      Bool.eqb s s' && (d mod 10 =? d' mod 10)%N && jstr_eqb r r'
  | _, _ => false
  end.

Definition same_value_zero (a b : value) : bool :=
  match a, b with
  | VUndefined, VUndefined => true
  | VNull, VNull => true
  | VBool x, VBool y => Bool.eqb x y
  | VNum x, VNum y => number_eqb x y
  | VStr x, VStr y => jstr_eqb x y
  | _, _ => false
  end.

(** [arr.includes(v)]. *)
Definition includes (arr : list value) (v : value) : bool :=
  existsb (fun e => same_value_zero e v) arr.

(** [obj[key]] on an object literal with own properties [props]: the key
    is converted by ToPropertyKey first. *)
Definition lookup (props : list (jstring * value)) (key : value)
  : result value :=
  bind (to_string key) (fun k => Ok (property props k)).

(** [target?.includes(v)].  The targets here are results of [lookup] on a
    table of arrays: an array, [undefined], or an inherited member of
    [Object.prototype], which has no [includes] method. *)
Definition optional_includes (target v : value) : result value :=
  match target with
  | VUndefined | VNull => Ok VUndefined
  | VArr elems => Ok (VBool (includes elems v))
  | _ => Throw (TypeError "includes is not a function")
  end.

(** A code unit that can start the rendering of a number: a digit, the
    minus sign, or the first letter of [NaN] and [Infinity]. *)
Definition numeric_head (c : code_unit) : bool :=
  ((48 <=? c) && (c <=? 57) || (c =? 45) || (c =? 78) || (c =? 73))%N.

Definition starts_numeric (s : jstring) : Prop :=
  exists c rest, s = c :: rest /\ numeric_head c = true.

End JS.

(* ===================================================================== *)
(** * server/src/utils/bugUtils.js                                        *)
(* ===================================================================== *)

Module BugUtils.
Import JS.

Definition s_open : jstring := lit "open".
Definition s_in_progress : jstring := lit "in-progress".
Definition s_resolved : jstring := lit "resolved".

Definition s_low : jstring := lit "low".
Definition s_medium : jstring := lit "medium".
Definition s_high : jstring := lit "high".
Definition s_critical : jstring := lit "critical".

(** The object literal [validTransitions], shared by
    [isValidStatusTransition] and [getValidNextStatuses]. *)
Definition validTransitions : list (jstring * value) :=
  [ (s_open,        VArr [VStr s_in_progress; VStr s_resolved]);
    (s_in_progress, VArr [VStr s_open; VStr s_resolved]);
    (s_resolved,    VArr [VStr s_open; VStr s_in_progress]) ].

Definition validStatuses : list value :=
  [VStr s_open; VStr s_in_progress; VStr s_resolved].

(** [isValidStatusTransition(currentStatus, newStatus)]. *)
Definition isValidStatusTransition (currentStatus newStatus : value)
  : result value :=
  if negb (includes validStatuses currentStatus)
     || negb (includes validStatuses newStatus)
  then Ok (VBool false)
  else
    bind (lookup validTransitions currentStatus) (fun row =>
    bind (optional_includes row newStatus) (fun found =>
    Ok (js_or found (VBool false)))).

(** [getValidNextStatuses(currentStatus)]. *)
Definition getValidNextStatuses (currentStatus : value) : result value :=
  bind (lookup validTransitions currentStatus) (fun row =>
  Ok (js_or row (VArr []))).

Definition validPriorities : list value :=
  [VStr s_low; VStr s_medium; VStr s_high; VStr s_critical].

(** [isValidPriority(priority)]. *)
Definition isValidPriority (priority : value) : bool :=
  includes validPriorities priority.

(** The object literal [weights]. *)
Definition weights : list (jstring * value) :=
  [ (s_low,      VNum (Int 1));
    (s_medium,   VNum (Int 2));
    (s_high,     VNum (Int 3));
    (s_critical, VNum (Int 4)) ].

(** [getPriorityWeight(priority)]. *)
Definition getPriorityWeight (priority : value) : result value :=
  bind (lookup weights priority) (fun weight =>
  Ok (js_or weight (VNum (Int 0)))).

(** The five properties [validateBugData] reads.  No built-in prototype
    defines any of these names, so reading one from a primitive, an array
    or a function yields [undefined]. *)
Inductive field := Title | Description | Reporter | Status | Priority.

Definition field_name (f : field) : jstring :=
  match f with
  | Title => lit "title"
  | Description => lit "description"
  | Reporter => lit "reporter"
  | Status => lit "status"
  | Priority => lit "priority"
  end.

(** [bugData.f]: reading a property of [undefined] or [null] throws. *)
Definition get_field (bugData : value) (f : field) : result value :=
  match bugData with
  | VUndefined => Throw (TypeError "Cannot read properties of undefined")
  | VNull => Throw (TypeError "Cannot read properties of null")
  | VObj props => Ok (property props (field_name f))
  | _ => Ok VUndefined
  end.

Definition msg_title_required : jstring :=
  lit "Title is required and must be a non-empty string".
Definition msg_title_length : jstring :=
  lit "Title cannot exceed 200 characters".
Definition msg_description : jstring :=
  lit "Description is required and must be a non-empty string".
Definition msg_reporter : jstring :=
  lit "Reporter is required and must be a non-empty string".
Definition msg_status : jstring :=
  lit "Status must be one of: open, in-progress, resolved".
Definition msg_priority : jstring :=
  lit "Priority must be one of: low, medium, high, critical".

(** [errors.push(m)]. *)
Definition push (errors : list jstring) (m : jstring) : list jstring :=
  errors ++ [m].

(** The string behind a value that passed the [typeof] guard. *)
Definition as_string (v : value) : jstring :=
  match v with VStr s => s | _ => [] end.

(** [!v || typeof v !== 'string' || v.trim().length === 0]. *)
Definition missing_text (v : value) : bool :=
  negb (to_boolean v) || negb (is_string v)
  || (str_length (trim (as_string v)) =? 0)%Z.

Record validation := mkValidation {
  valid : bool;
  errors : list jstring
}.

(** [validateBugData(bugData)]: the five checks run in source order on one
    [errors] array. *)
Definition validateBugData (bugData : value) : result validation :=
  let errors := [] in
  bind (get_field bugData Title) (fun title =>
  let errors :=
    if missing_text title then push errors msg_title_required
    else if (200 <? str_length (as_string title))%Z
         then push errors msg_title_length
         else errors in
  bind (get_field bugData Description) (fun description =>
  let errors :=
    if missing_text description then push errors msg_description
    else errors in
  bind (get_field bugData Reporter) (fun reporter =>
  let errors :=
    if missing_text reporter then push errors msg_reporter else errors in
  bind (get_field bugData Status) (fun status =>
  let errors :=
    if to_boolean status && negb (includes validStatuses status)
    then push errors msg_status else errors in
  bind (get_field bugData Priority) (fun priority =>
  let errors :=
    if to_boolean priority && negb (includes validPriorities priority)
    then push errors msg_priority else errors in
  Ok {| valid := (Z.of_nat (List.length errors) =? 0)%Z;
        errors := errors |}))))).

End BugUtils.

(* ===================================================================== *)
(** * server/src/models/Bug.js                                            *)
(* ===================================================================== *)

Module BugModel.
Import JS.

(** A stored bug document, as the schema and its [timestamps] option
    shape it.  Timestamps are milliseconds. *)
Record bug := mkBug {
  _id : jstring;
  title : jstring;
  description : jstring;
  status : jstring;
  priority : jstring;
  reporter : jstring;
  createdAt : Z;
  updatedAt : Z
}.

(** The [title] path of the schema:
    [{ type: String, required, trim: true, maxlength: 200 }].  The [trim]
    setter runs when the value is assigned, so both validators see the
    trimmed string. *)
Definition title_path_error (raw : jstring) : option jstring :=
  let v := trim raw in
  if (str_length v =? 0)%Z then Some (lit "Title is required")
  else if (200 <? str_length v)%Z
       then Some (lit "Title cannot exceed 200 characters")
       else None.

End BugModel.

(* ===================================================================== *)
(** * server/src/controllers/bugController.js                             *)
(* ===================================================================== *)

Module BugController.
Import JS BugModel.

(** The operations of the Mongoose model [Bug] the controller awaits.
    Each either resolves or rejects with an error. *)
Record Model := mkModel {
  (** [Bug.find(query).sort(sortBy)] *)
  find_sort : list (jstring * value) -> jstring -> result (list bug);
  (** [Bug.findById(id)] *)
  findById : jstring -> result (option bug);
  (** [Bug.findByIdAndUpdate(id, body, { new: true, runValidators: true })] *)
  findByIdAndUpdate : jstring -> value -> result (option bug)
}.

Inductive payload :=
| OneBug (b : bug)
| Bugs (l : list bug).

(** The JSON body handed to [res.json]. *)
Record body := mkBody {
  success : bool;
  count : option Z;
  data : option payload;
  error : option jstring
}.

(** What a handler does with the response: [res.status(c).json(b)] or
    [next(error)]. *)
Inductive reply :=
| Json (code : Z) (b : body)
| Next (e : exn).

Definition not_found : reply :=
  Json 404 (mkBody false None None (Some (lit "Bug not found"))).

(** [v === 'literal']. *)
Definition strict_equals (v : value) (s : jstring) : bool :=
  match v with VStr t => jstr_eqb t s | _ => false end.

(** [getBugs]: [status], [priority] and [sort] are the members of
    [req.query]. *)
Definition getBugs (Bug : Model) (status priority sort : value) : reply :=
  let query := [] in
  let query := if to_boolean status
               then query ++ [(lit "status", status)] else query in
  let query := if to_boolean priority
               then query ++ [(lit "priority", priority)] else query in
  let sortBy :=
    if strict_equals sort (lit "oldest") then lit "createdAt"
    else if strict_equals sort (lit "priority") then lit "-priority"
    else lit "-createdAt" in
  match find_sort Bug query sortBy with
  | Ok bugs =>
      Json 200 (mkBody true (Some (Z.of_nat (List.length bugs)))
                       (Some (Bugs bugs)) None)
  | Throw error => Next error
  end.

(** [getBug]: [id] is [req.params.id]. *)
Definition getBug (Bug : Model) (id : jstring) : reply :=
  match findById Bug id with
  | Ok None => not_found
  | Ok (Some bug) => Json 200 (mkBody true None (Some (OneBug bug)) None)
  | Throw error =>
      if jstr_eqb (ename error) (lit "CastError") then not_found
      else Next error
  end.

(** [updateBug]: [id] is [req.params.id], [body] is [req.body]. *)
Definition updateBug (Bug : Model) (id : jstring) (body : value) : reply :=
  match findByIdAndUpdate Bug id body with
  | Ok None => not_found
  | Ok (Some bug) => Json 200 (mkBody true None (Some (OneBug bug)) None)
  | Throw error =>
      if jstr_eqb (ename error) (lit "ValidationError")
      then Json 400 (mkBody false None None
                            (Some (join (lit ", ") (eerrors error))))
      else if jstr_eqb (ename error) (lit "CastError") then not_found
      else Next error
  end.

End BugController.

(* ===================================================================== *)
(** * The document store behind [Bug]                                     *)
(* ===================================================================== *)

Module Store.
Import JS BugModel BugController.

(** Lexicographic order on strings by code unit, the store's default
    (binary) string comparison. *)
Fixpoint jstr_leb (a b : jstring) : bool :=
  match a, b with
  | [], _ => true
  | _ :: _, [] => false
  | x :: a', y :: b' =>
      if (x <? y)%N then true
      else if (y <? x)%N then false
      else jstr_leb a' b'
  end.

(** A document matches a query when every queried path equals the given
    string. *)
Definition matches (query : list (jstring * value)) (b : bug) : bool :=
  forallb (fun kv =>
             match snd kv with
             | VStr s =>
                 if jstr_eqb (fst kv) (lit "status") then jstr_eqb (status b) s
                 else if jstr_eqb (fst kv) (lit "priority")
                      then jstr_eqb (priority b) s
                      else false
             | _ => false
             end) query.

(** [a] may come before [b] under the sort string: a leading [-] means
    descending, and a path holding strings is ordered as strings. *)
Definition in_order (sortBy : jstring) (a b : bug) : bool :=
  if jstr_eqb sortBy (lit "createdAt") then (createdAt a <=? createdAt b)%Z
  else if jstr_eqb sortBy (lit "-createdAt")
       then (createdAt b <=? createdAt a)%Z
  else if jstr_eqb sortBy (lit "-priority")
       then jstr_leb (priority b) (priority a)
  else true.

Fixpoint insert (sortBy : jstring) (x : bug) (sorted : list bug) : list bug :=
  match sorted with
  | [] => [x]
  | y :: rest =>
      if in_order sortBy x y then x :: sorted
      else y :: insert sortBy x rest
  end.

Definition sort (sortBy : jstring) (docs : list bug) : list bug :=
  fold_right (insert sortBy) [] docs.

Definition is_object_id_char (c : code_unit) : bool :=
  ((48 <=? c) && (c <=? 57) || (65 <=? c) && (c <=? 70)
   || (97 <=? c) && (c <=? 102))%N.

(** An identifier casts when it is 24 hexadecimal digits. *)
Definition castable (id : jstring) : bool :=
  (List.length id =? 24)%nat && forallb is_object_id_char id.

Definition cast_error (id : jstring) : exn :=
  mkExn (lit "CastError")
        (lit "Cast to ObjectId failed for value " ++ id) [].

(** A collection held in memory.  [findByIdAndUpdate] looks its target up
    and returns it without applying the update: the handlers above depend
    only on whether the identifier casts and the target is found. *)
Definition collection (docs : list bug) : Model :=
  {| find_sort := fun query sortBy =>
       Ok (sort sortBy (filter (matches query) docs));
     findById := fun id =>
       if castable id
       then Ok (List.find (fun b => jstr_eqb (_id b) id) docs)
       else Throw (cast_error id);
     findByIdAndUpdate := fun id _ =>
       if castable id
       then Ok (List.find (fun b => jstr_eqb (_id b) id) docs)
       else Throw (cast_error id) |}.

End Store.

(* ===================================================================== *)
(** * client/src/context/BugContext.jsx                                   *)
(* ===================================================================== *)

Module BugContext.
Import JS BugModel.

(** The filter object held in the [filters] state cell.  React compares
    state and dependencies with [Object.is], which on objects is identity:
    [ref] names the object, the other fields are its contents. *)
Record filterSel := mkFilters {
  ref : nat;
  f_status : option jstring;
  f_priority : option jstring;
  f_sort : option jstring
}.

(** The four [useState] cells of [BugProvider]. *)
Record cells := mkCells {
  bugs : list bug;
  loading : bool;
  error : option jstring;
  filters : filterSel
}.

(** Calls made to [bugService]. *)
Inductive request :=
| FetchBugs (activeFilters : filterSel)
| AddBug (bugData : value)
| ModifyBug (id : jstring) (bugData : value)
| RemoveBug (id : jstring).

(** The provider between two events.
    - [now]: the state cells, with every [setX] call so far applied;
    - [seen]: the cell values the last render handed to the functions it
      created ([createBug] and the others read [loading] and [filters]
      from there, not from [now]);
    - [memo]: the [filters] object [loadBugs] was last memoised on by
      [useCallback], [None] before the first render;
    - [sent]: the service calls made so far, oldest first. *)
Record provider := mkProvider {
  now : cells;
  seen : cells;
  memo : option nat;
  sent : list request
}.

Definition initial_cells : cells :=
  mkCells [] false None (mkFilters 0 None None None).

Definition initial : provider :=
  mkProvider initial_cells initial_cells None [].

Definition setBugs (f : list bug -> list bug) (p : provider) : provider :=
  let c := now p in
  mkProvider (mkCells (f (bugs c)) (loading c) (error c) (filters c))
             (seen p) (memo p) (sent p).

Definition setLoading (b : bool) (p : provider) : provider :=
  let c := now p in
  mkProvider (mkCells (bugs c) b (error c) (filters c))
             (seen p) (memo p) (sent p).

Definition setError (e : option jstring) (p : provider) : provider :=
  let c := now p in
  mkProvider (mkCells (bugs c) (loading c) e (filters c))
             (seen p) (memo p) (sent p).

Definition setFilters (f : filterSel) (p : provider) : provider :=
  let c := now p in
  mkProvider (mkCells (bugs c) (loading c) (error c) f)
             (seen p) (memo p) (sent p).

Definition send (r : request) (p : provider) : provider :=
  mkProvider (now p) (seen p) (memo p) (sent p ++ [r]).

(** [err.message || fallback]. *)
Definition message_or (err : exn) (fallback : jstring) : jstring :=
  if jstr_eqb (emessage err) [] then fallback else emessage err.

(** ** [loadBugs]: up to the [await], then its two continuations. *)
Definition loadBugs (customFilters : option filterSel) (p : provider)
  : provider :=
  let p := setLoading true p in
  let p := setError None p in
  let activeFilters :=
    match customFilters with
    | Some f => f
    | None => filters (seen p)
    end in
  send (FetchBugs activeFilters) p.

Definition loadBugs_resolved (data : list bug) (p : provider) : provider :=
  let p := setBugs (fun _ => data) p in
  setLoading false p.

Definition loadBugs_rejected (err : exn) (p : provider) : provider :=
  let p := setError (Some (message_or err (lit "Failed to load bugs"))) p in
  setLoading false p.

(** ** [createBug] *)
Definition createBug (bugData : value) (p : provider) : result provider :=
  if loading (seen p) then Throw (Error (lit "Request already in progress"))
  else
    let p := setLoading true p in
    let p := setError None p in
    Ok (send (AddBug bugData) p).

Definition createBug_resolved (newBug : bug) (p : provider) : provider :=
  let p :=
    setBugs (fun prevBugs =>
               match List.find (fun b => jstr_eqb (_id b) (_id newBug)) prevBugs with
               | Some _ => prevBugs
               | None => newBug :: prevBugs
               end) p in
  setLoading false p.

Definition createBug_rejected (err : exn) (p : provider) : provider :=
  let p := setError (Some (message_or err (lit "Failed to create bug"))) p in
  setLoading false p.

(** ** [updateBug] *)
Definition updateBug (id : jstring) (bugData : value) (p : provider)
  : result provider :=
  let p := setLoading true p in
  let p := setError None p in
  Ok (send (ModifyBug id bugData) p).

Definition updateBug_resolved (id : jstring) (updatedBug : bug) (p : provider)
  : provider :=
  let p :=
    setBugs (List.map (fun bug => if jstr_eqb (_id bug) id then updatedBug
                                  else bug)) p in
  setLoading false p.

Definition updateBug_rejected (err : exn) (p : provider) : provider :=
  let p := setError (Some (message_or err (lit "Failed to update bug"))) p in
  setLoading false p.

(** ** [deleteBug] *)
Definition deleteBug (id : jstring) (p : provider) : result provider :=
  let p := setLoading true p in
  let p := setError None p in
  Ok (send (RemoveBug id) p).

Definition deleteBug_resolved (id : jstring) (p : provider) : provider :=
  let p := setBugs (List.filter (fun bug => negb (jstr_eqb (_id bug) id))) p in
  setLoading false p.

Definition deleteBug_rejected (err : exn) (p : provider) : provider :=
  let p := setError (Some (message_or err (lit "Failed to delete bug"))) p in
  setLoading false p.

(** ** [updateFilters] *)
Definition updateFilters (newFilters : filterSel) (p : provider) : provider :=
  setFilters newFilters p.

(** ** A render of [BugProvider] and its effect.
    The render hands the current cells to the functions it creates.
    [useCallback(..., [filters])] yields a new [loadBugs] exactly when the
    [filters] object differs from the one memoised on, and
    [useEffect(() => { loadBugs(); }, [loadBugs])] then runs on the first
    render and whenever [loadBugs] is new. *)
Definition render (p : provider) : provider :=
  let p := mkProvider (now p) (now p) (memo p) (sent p) in
  let current := ref (filters (now p)) in
  let stale :=
    match memo p with
    | Some r => negb (Nat.eqb r current)
    | None => true
    end in
  if stale
  then loadBugs None (mkProvider (now p) (seen p) (Some current) (sent p))
  else p.

(** ** Event traces *)
Inductive event :=
| Render
| UpdateFilters (newFilters : filterSel)
| LoadResolved (data : list bug)
| LoadRejected (err : exn)
| Create (bugData : value)
| CreateResolved (newBug : bug)
| CreateRejected (err : exn)
| Update (id : jstring) (bugData : value)
| UpdateResolved (id : jstring) (updatedBug : bug)
| UpdateRejected (err : exn)
| Delete (id : jstring)
| DeleteResolved (id : jstring)
| DeleteRejected (err : exn).

(** A call that throws before doing anything leaves the provider as it
    was. *)
Definition settle (p : provider) (r : result provider) : provider :=
  match r with
  | Ok p' => p'
  | Throw _ => p
  end.

Definition step (p : provider) (e : event) : provider :=
  match e with
  | Render => render p
  | UpdateFilters f => updateFilters f p
  | LoadResolved data => loadBugs_resolved data p
  | LoadRejected err => loadBugs_rejected err p
  | Create bugData => settle p (createBug bugData p)
  | CreateResolved newBug => createBug_resolved newBug p
  | CreateRejected err => createBug_rejected err p
  | Update id bugData => settle p (updateBug id bugData p)
  | UpdateResolved id updatedBug => updateBug_resolved id updatedBug p
  | UpdateRejected err => updateBug_rejected err p
  | Delete id => settle p (deleteBug id p)
  | DeleteResolved id => deleteBug_resolved id p
  | DeleteRejected err => deleteBug_rejected err p
  end.

Definition run (p : provider) (trace : list event) : provider :=
  fold_left step trace p.



End BugContext.

(* ===================================================================== *)
(** * Vocabulary of the specification                                     *)
(* ===================================================================== *)

Module Spec.
Import JS BugUtils BugModel.

(** Membership in the status and priority enumerations. *)
Definition is_status (v : value) : Prop :=
  v = VStr s_open \/ v = VStr s_in_progress \/ v = VStr s_resolved.

Definition is_priority (v : value) : Prop :=
  v = VStr s_low \/ v = VStr s_medium \/ v = VStr s_high
  \/ v = VStr s_critical.

Definition status_name (s : jstring) : bool :=
  jstr_eqb s s_open || jstr_eqb s s_in_progress || jstr_eqb s s_resolved.

Definition priority_name (s : jstring) : bool :=
  jstr_eqb s s_low || jstr_eqb s s_medium || jstr_eqb s s_high
  || jstr_eqb s s_critical.

(** Values that are not objects. *)
Definition primitive (v : value) : bool :=
  match v with
  | VArr _ | VObj _ | VFun _ => false
  | _ => true
  end.

(** [v] is a member of the list [ret] (and [ret] is a list). *)
Definition member (v ret : value) : bool :=
  match ret with
  | VArr elems => includes elems v
  | _ => false
  end.

(** [getValidNextStatuses(current)] returns a list that holds
    [proposed]. *)
Definition offers (current proposed : value) : bool :=
  match getValidNextStatuses current with
  | Ok ret => member proposed ret
  | Throw _ => false
  end.

(** The two transition functions agree on [(current, proposed)]. *)
Definition agree (current proposed : value) : Prop :=
  isValidStatusTransition current proposed = Ok (VBool true)
  <-> offers current proposed = true.

(** The field a candidate carries under a name; an absent property reads
    as [undefined]. *)
Definition read (candidate : value) (f : field) : value :=
  match get_field candidate f with
  | Ok v => v
  | Throw _ => VUndefined
  end.

(** ** The rules of [validateRecord]

    One rule per field, each a predicate on that field alone.  Text fields
    must be present, strings and non-empty after trimming; the title must
    also have at most 200 characters after trimming; status and priority,
    if present, must belong to their enumeration.  What counts as a
    present status or priority is a parameter: the candidate carries the
    field ([provided]), or the field is truthy ([to_boolean]). *)
Definition text_violated (v : value) : bool :=
  match v with
  | VStr s => match trim s with [] => true | _ :: _ => false end
  | _ => true
  end.





(** ** The checks of [validateBugData]

    What the five [if] statements of the source test, field by field: the
    title is measured as given, and a status or priority is looked at only
    when it is truthy. *)
Definition long_as_given (v : value) : bool :=
  match v with
  | VStr s => (200 <? str_length s)%Z
  | _ => false
  end.

Definition check (f : field) (v : value) : bool :=
  match f with
  | Title => text_violated v || long_as_given v
  | Description | Reporter => text_violated v
  | Status =>
      to_boolean v && negb (match v with VStr s => status_name s | _ => false end)
  | Priority =>
      to_boolean v && negb (match v with VStr s => priority_name s | _ => false end)
  end.




(** The field a message speaks about. *)
Definition field_of_message (m : jstring) : option field :=
  if jstr_eqb m msg_title_required || jstr_eqb m msg_title_length
  then Some Title
  else if jstr_eqb m msg_description then Some Description
  else if jstr_eqb m msg_reporter then Some Reporter
  else if jstr_eqb m msg_status then Some Status
  else if jstr_eqb m msg_priority then Some Priority
  else None.


(** The title check of the source, as a list of messages. *)
Definition title_messages (title : value) : list jstring :=
  if missing_text title then [msg_title_required]
  else if (200 <? str_length (as_string title))%Z then [msg_title_length]
  else [].

(** A title of one letter followed by 200 spaces, and the candidate that
    carries it. *)
Definition padded_title : jstring := lit "a" ++ repeat 32%N 200.

Definition padded_candidate : value :=
  VObj [ (lit "title", VStr padded_title);
         (lit "description", VStr (lit "x"));
         (lit "reporter", VStr (lit "y")) ].



(** Two stored bugs that differ in priority. *)
Definition low_bug : bug :=
  mkBug (lit "65f1c0de0000000000000001") (lit "Typo on the help page")
        (lit "A word is misspelled") s_open s_low (lit "Ann") 1000 1000.

Definition critical_bug : bug :=
  mkBug (lit "65f1c0de0000000000000002") (lit "Login fails")
        (lit "Nobody can sign in") s_open s_critical (lit "Bob") 2000 2000.

(** How many local records carry an identifier. *)
Definition count_id (id : jstring) (l : list bug) : nat :=
  List.length (filter (fun b => jstr_eqb (_id b) id) l).

(** The numeric weight of a stored priority. *)
Definition weight (b : bug) : Z :=
  match getPriorityWeight (VStr (priority b)) with
  | Ok (VNum (Int z)) => z
  | _ => 0%Z
  end.

Fixpoint non_increasing (l : list Z) : bool :=
  match l with
  | x :: ((y :: _) as rest) => (y <=? x)%Z && non_increasing rest
  | _ => true
  end.

(** The last render has run the effect for the current [filters] object. *)
Definition committed (p : BugContext.provider) : Prop :=
  BugContext.memo p
  = Some (BugContext.ref (BugContext.filters (BugContext.now p))).


(** The provider once mounted and loaded, and the provider with one create
    call in flight and rendered. *)
Definition login_report : value :=
  VObj [ (lit "title", VStr (lit "Login fails"));
         (lit "description", VStr (lit "Nobody can sign in"));
         (lit "reporter", VStr (lit "Ann")) ].

Definition idle : BugContext.provider :=
  BugContext.run BugContext.initial
    [BugContext.Render; BugContext.LoadResolved [low_bug]; BugContext.Render].

Definition creating : BugContext.provider :=
  BugContext.run idle [BugContext.Create login_report; BugContext.Render].

(** The provider right after mounting, its first load still in flight,
    and two filter objects a user may then select. *)
Definition mounted : BugContext.provider :=
  BugContext.render BugContext.initial.



End Spec.

(* ===================================================================== *)
(** * server/src/utils/dateUtils.js                                       *)
(* ===================================================================== *)

Module DateUtils.
Import JS.

(** The [date] argument as [getRelativeTime] observes it: a falsy value,
    or a value that is, or that [new Date(date)] turns into, a [Date]
    whose [getTime()] is a number of milliseconds or [NaN] ([None]). *)
Inductive date_arg :=
| Falsy
| Moment (time : option Z).

(** [n > 1 ? 's' : ''] *)
Definition plural (n : Z) : jstring :=
  if (1 <? n)%Z then lit "s" else lit "".

(** The template [`${n} unit${plural} ago`]. *)
Definition ago (n : Z) (unit : string) : jstring :=
  number_to_string (Int n) ++ lit " " ++ lit unit ++ plural n ++ lit " ago".

(** [getRelativeTime(date)]; [now] is the time [new Date()] reads.
    [Math.floor] of a quotient by a positive number is [Z.div]. *)
Definition getRelativeTime (now : Z) (date : date_arg)
  : result (option jstring) :=
  match date with
  | Falsy => Ok None
  | Moment None => Throw (Error (lit "Invalid date provided"))
  | Moment (Some dateObj) =>
      let diffInSeconds := ((now - dateObj) / 1000)%Z in
      if (diffInSeconds <? 60)%Z then Ok (Some (lit "just now"))
      else
        let diffInMinutes := (diffInSeconds / 60)%Z in
        if (diffInMinutes <? 60)%Z then Ok (Some (ago diffInMinutes "minute"))
        else
          let diffInHours := (diffInMinutes / 60)%Z in
          if (diffInHours <? 24)%Z then Ok (Some (ago diffInHours "hour"))
          else
            let diffInDays := (diffInHours / 24)%Z in
            if (diffInDays <? 30)%Z then Ok (Some (ago diffInDays "day"))
            else
              let diffInMonths := (diffInDays / 30)%Z in
              if (diffInMonths <? 12)%Z
              then Ok (Some (ago diffInMonths "month"))
              else
                let diffInYears := (diffInMonths / 12)%Z in
                Ok (Some (ago diffInYears "year"))
  end.

End DateUtils.

(* ===================================================================== *)
(** * server/src/middleware: notFound.js, errorHandler.js, and the calls  *)
(** * they make to utils/errorLogger.js                                   *)
(* ===================================================================== *)

Module Middleware.
Import JS.

(** An error object as the middleware reads it: the [name], [message] and
    [errors] of [exn], and the own properties [code], [statusCode] (a
    number when present) and [stack].  An error named [ValidationError]
    is the store's, which carries its [errors]; for one without them
    [Object.values(err.errors)] throws, a path [errorHandler] below does
    not show and the theorems about it stay away from. *)
Record failure := mkFailure {
  cause : exn;
  code : value;
  statusCode : option Z;
  stack : jstring
}.

(** The parts of [req] the middleware and the logger read. *)
Record request := mkRequest {
  method : jstring;
  originalUrl : jstring
}.

(** [notFound(req, res, next)]: the error handed to [next].  [trace] is
    the stack the engine gives the new [Error]. *)
Definition notFound (trace : jstring) (req : request) : failure :=
  mkFailure (Error (lit "Not Found - " ++ originalUrl req))
            VUndefined (Some 404%Z) trace.

(** Calls to [errorLogger]. *)
Inductive log_entry :=
| logApplicationError (err : failure) (req : request)
| logDatabaseError (err : failure) (operation : jstring).

(** The local [error] of [errorHandler]: only its [message] and
    [statusCode] are read at the end. *)
Definition replace_when (test : bool) (message : jstring) (status : Z)
  (error : jstring * option Z) : jstring * option Z :=
  if test then (message, Some status) else error.

Definition named (err : failure) (n : string) : bool :=
  jstr_eqb (ename (cause err)) (lit n).

(** [err.code === 11000] *)
Definition duplicate_key (err : failure) : bool :=
  match code err with
  | VNum (Int z) => (z =? 11000)%Z
  | _ => false
  end.

Record sent := mkSent {
  logged : list log_entry;
  status : Z;
  body : value
}.

(** [errorHandler(err, req, res, next)]; [NODE_ENV] is
    [process.env.NODE_ENV].  The rules run in source order, each one
    overwriting [error]. *)
Definition errorHandler (NODE_ENV : option jstring) (err : failure)
  (req : request) : sent :=
  let error := (emessage (cause err), statusCode err) in
  let log := [logApplicationError err req] in
  let error := replace_when (named err "CastError")
                 (lit "Resource not found") 404 error in
  let error := replace_when (duplicate_key err)
                 (lit "Duplicate field value entered") 400 error in
  let error := replace_when (named err "ValidationError")
                 (join (lit ", ") (eerrors (cause err))) 400 error in
  let database := named err "MongoServerError" || named err "MongoError" in
  let log := if database
             then log ++ [logDatabaseError err (lit "database_operation")]
             else log in
  let error := replace_when database
                 (lit "Database operation failed") 500 error in
  let error := replace_when (named err "JsonWebTokenError")
                 (lit "Invalid token") 401 error in
  let error := replace_when (named err "TokenExpiredError")
                 (lit "Token expired") 401 error in
  let statusCode :=
    match snd error with
    | Some c => if (c =? 0)%Z then 500%Z else c
    | None => 500%Z
    end in
  let message :=
    if jstr_eqb (fst error) [] then lit "Server Error" else fst error in
  let development :=
    match NODE_ENV with
    | Some env => jstr_eqb env (lit "development")
    | None => false
    end in
  let errorResponse :=
    [ (lit "success", VBool false); (lit "error", VStr message) ]
    ++ (if development
        then [ (lit "stack", VStr (stack err));
               (lit "details",
                VObj [ (lit "name", VStr (ename (cause err)));
                       (lit "code", code err) ]) ]
        else []) in
  mkSent log statusCode (VObj errorResponse).

End Middleware.

(* ===================================================================== *)
(** * bugController.js: createBug and deleteBug                           *)
(* ===================================================================== *)

Module BugHandlers.
Import JS BugModel BugController.

(** [createBug]: [create] is [Bug.create], [body] is [req.body]. *)
Definition createBug (create : value -> result bug) (body : value) : reply :=
  match create body with
  | Ok bug => Json 201 (mkBody true None (Some (OneBug bug)) None)
  | Throw error =>
      if jstr_eqb (ename error) (lit "ValidationError")
      then Json 400 (mkBody false None None
                            (Some (join (lit ", ") (eerrors error))))
      else Next error
  end.

(** What [deleteBug] does with the response: one of the replies above, or
    [res.status(200).json({ success: true, data: {} })]. *)
Inductive outcome :=
| Replied (r : reply)
| Deleted.

(** The store as [deleteBug] uses it, over a store state [S]:
    [documents s] are the read operations in state [s], and [deleteOne]
    is [bug.deleteOne()]. *)
Record Deleting (S : Type) := mkDeleting {
  documents : S -> Model;
  deleteOne : bug -> S -> result S
}.

(** The [catch] block of [deleteBug]. *)
Definition delete_failed (error : exn) : outcome :=
  if jstr_eqb (ename error) (lit "CastError") then Replied not_found
  else Replied (Next error).

(** [deleteBug]: [id] is [req.params.id]; the state after a rejected
    store call is the state before it. *)
Definition deleteBug (S : Type) (D : Deleting S) (id : jstring) (s : S)
  : outcome * S :=
  match findById (documents D s) id with
  | Ok None => (Replied not_found, s)
  | Ok (Some bug) =>
      match deleteOne D bug s with
      | Ok s' => (Deleted, s')
      | Throw error => (delete_failed error, s)
      end
  | Throw error => (delete_failed error, s)
  end.

(** The collection held in memory, with deletion by identifier. *)
Definition memory : Deleting (list bug) :=
  {| documents := Store.collection;
     deleteOne := fun b docs =>
       Ok (filter (fun d => negb (jstr_eqb (_id d) (_id b))) docs) |}.

End BugHandlers.

(* ===================================================================== *)
(** * client/src/services/bugService.js                                   *)
(* ===================================================================== *)

Module BugService.
Import JS.

(** How a [fetch] call ends: it rejects, or it resolves to a response
    with a status, a status text and a body, which [response.json()]
    either parses or rejects. *)
Inductive fetched :=
| Rejected (e : exn)
| Responded (status : Z) (statusText : jstring) (json : result value).

(** [response.ok] *)
Definition ok (status : Z) : bool := (200 <=? status)%Z && (status <=? 299)%Z.

(** [v.error] and [v.data] on a parsed body.  No built-in prototype
    defines either name, so only an object can carry them; reading a
    property of [null] throws. *)
Definition member_of (v : value) (k : string) : result value :=
  match v with
  | VUndefined => Throw (TypeError "Cannot read properties of undefined")
  | VNull => Throw (TypeError "Cannot read properties of null")
  | VObj props => Ok (property props (lit k))
  | _ => Ok VUndefined
  end.

Definition connection_message : jstring :=
  lit "Unable to connect to the server. Please ensure the backend server is running on port 5000.".

(** The [catch] block shared by [getBug], [createBug], [updateBug] and
    [deleteBug]. *)
Definition rethrow (error : exn) : exn :=
  if jstr_eqb (emessage error) (lit "Failed to fetch")
     || jstr_eqb (ename error) (lit "TypeError")
  then Error connection_message
  else error.

Definition caught (attempt : result value) : result value :=
  match attempt with
  | Ok v => Ok v
  | Throw error => Throw (rethrow error)
  end.

(** The [if (!response.ok)] block of [createBug], [updateBug] and
    [deleteBug]: [new Error(errorData.error || `${prefix}${statusText}`)].
    The constructor converts its argument by ToString. *)
Definition refuse (prefix : string) (statusText : jstring)
  (json : result value) : result value :=
  bind json (fun errorData =>
  bind (member_of errorData "error") (fun text =>
  bind (to_string (js_or text (VStr (lit prefix ++ statusText)))) (fun message =>
  Throw (Error message)))).

(** [return data.data || data] *)
Definition unwrap (json : result value) : result value :=
  bind json (fun data =>
  bind (member_of data "data") (fun inner => Ok (js_or inner data))).

(** [createBug(bugData)], given how its [fetch] ends. *)
Definition createBug (r : fetched) : result value :=
  caught
    match r with
    | Rejected e => Throw e
    | Responded status statusText json =>
        if negb (ok status)
        then refuse "Failed to create bug: " statusText json
        else unwrap json
    end.

(** [updateBug(id, bugData)] *)
Definition updateBug (r : fetched) : result value :=
  caught
    match r with
    | Rejected e => Throw e
    | Responded status statusText json =>
        if negb (ok status)
        then refuse "Failed to update bug: " statusText json
        else unwrap json
    end.

(** [deleteBug(id)] *)
Definition deleteBug (r : fetched) : result value :=
  caught
    match r with
    | Rejected e => Throw e
    | Responded status statusText json =>
        if negb (ok status)
        then refuse "Failed to delete bug: " statusText json
        else Ok (VBool true)
    end.

(** [getBug(id)] *)
Definition getBug (r : fetched) : result value :=
  caught
    match r with
    | Rejected e => Throw e
    | Responded status statusText json =>
        if negb (ok status)
        then Throw (Error (lit "Failed to fetch bug: " ++ statusText))
        else unwrap json
    end.

Fixpoint starts_with (prefix s : jstring) : bool :=
  match prefix, s with
  | [], _ => true
  | _ :: _, [] => false
  | x :: prefix', y :: s' => N.eqb x y && starts_with prefix' s'
  end.

(** [s.replace(pattern, replacement)] with a string pattern: the first
    occurrence only. *)
Fixpoint replace_first (pattern replacement s : jstring) : jstring :=
  if starts_with pattern s
  then replacement ++ skipn (List.length pattern) s
  else match s with
       | [] => []
       | c :: rest => c :: replace_first pattern replacement rest
       end.

Definition line_feed : jstring := [10%N].

(** The message [getBugs] throws when the health check fails. *)
Definition unreachable_message (API_BASE_URL : jstring) : jstring :=
  lit "Unable to connect to the backend server at "
  ++ replace_first (lit "/api") (lit "") API_BASE_URL ++ lit ". "
  ++ lit "Please ensure:" ++ line_feed
  ++ lit "1. The backend server is running on port 5000" ++ line_feed
  ++ lit "2. MongoDB is running and accessible" ++ line_feed
  ++ lit "3. No firewall is blocking port 5000" ++ line_feed
  ++ lit "4. Check the backend console for any errors".

Definition network_message : jstring :=
  lit "Network error: Unable to reach the server. Please check your connection.".

(** The parameters [getBugs(filters)] appends to its [URLSearchParams],
    as decoded name and value pairs: a filter is sent when it is truthy.
    The URL is [`${API_BASE_URL}/bugs`], followed by [?] and the encoded
    parameters when there are any. *)
Definition parameter (name : string) (selection : option jstring)
  : list (jstring * jstring) :=
  match selection with
  | Some v => if jstr_eqb v [] then [] else [(lit name, v)]
  | None => []
  end.

Definition query_params (filters : BugContext.filterSel)
  : list (jstring * jstring) :=
  parameter "status" (BugContext.f_status filters)
  ++ parameter "priority" (BugContext.f_priority filters)
  ++ parameter "sort" (BugContext.f_sort filters).

(** [getBugs(filters)], given how its [fetch] ends and what
    [checkBackendHealth()] resolves to.  The body of a response that is
    not ok is read as text and dropped; the count logged before the
    return reads [data.count], which throws on the same bodies as
    [data.data]. *)
Definition getBugs (API_BASE_URL : jstring) (isHealthy : bool) (r : fetched)
  : result value :=
  let attempt :=
    match r with
    | Rejected e => Throw e
    | Responded status statusText json =>
        if negb (ok status)
        then Throw (Error (lit "Failed to fetch bugs: "
                           ++ number_to_string (Int status) ++ lit " "
                           ++ statusText))
        else unwrap json
    end in
  match attempt with
  | Ok v => Ok v
  | Throw error =>
      if jstr_eqb (emessage error) (lit "Failed to fetch")
         || jstr_eqb (ename error) (lit "TypeError")
      then if negb isHealthy
           then Throw (Error (unreachable_message API_BASE_URL))
           else Throw (Error network_message)
      else Throw error
  end.

End BugService.

(* ===================================================================== *)
(** * client/src/components: BugItem.jsx, BugForm.jsx, BugList.jsx        *)
(* ===================================================================== *)

Module Components.
Import JS BugModel.

(** ** BugItem.jsx *)

(** [getStatusClass(status)]: a [switch], which compares with [===]. *)
Definition getStatusClass (status : value) : jstring :=
  if BugController.strict_equals status (lit "open")
  then lit "status-open"
  else if BugController.strict_equals status (lit "in-progress")
  then lit "status-in-progress"
  else if BugController.strict_equals status (lit "resolved")
  then lit "status-resolved"
  else lit "".

(** [getPriorityClass(priority)] *)
Definition getPriorityClass (priority : value) : jstring :=
  if BugController.strict_equals priority (lit "low")
  then lit "priority-low"
  else if BugController.strict_equals priority (lit "medium")
  then lit "priority-medium"
  else if BugController.strict_equals priority (lit "high")
  then lit "priority-high"
  else if BugController.strict_equals priority (lit "critical")
  then lit "priority-critical"
  else lit "".

(** ** BugForm.jsx *)

(** The [formData] state: five strings. *)
Record formData := mkForm {
  form_title : jstring;
  form_description : jstring;
  form_status : jstring;
  form_priority : jstring;
  form_reporter : jstring
}.

(** The form when it opens for a new bug, and after a successful
    submission. *)
Definition empty_form : formData :=
  mkForm (lit "") (lit "") (lit "open") (lit "medium") (lit "").

(** [!s.trim()] *)
Definition blank (s : jstring) : bool := jstr_eqb (trim s) [].

(** [validate()]: the [newErrors] object, keys in insertion order, and
    the returned boolean. *)
Definition validate (fd : formData) : list (jstring * jstring) * bool :=
  let newErrors := [] in
  let newErrors :=
    if blank (form_title fd)
    then newErrors ++ [(lit "title", lit "Title is required")]
    else if (200 <? str_length (form_title fd))%Z
         then newErrors
              ++ [(lit "title", lit "Title cannot exceed 200 characters")]
         else newErrors in
  let newErrors :=
    if blank (form_description fd)
    then newErrors ++ [(lit "description", lit "Description is required")]
    else newErrors in
  let newErrors :=
    if blank (form_reporter fd)
    then newErrors ++ [(lit "reporter", lit "Reporter name is required")]
    else newErrors in
  (newErrors, (Z.of_nat (List.length newErrors) =? 0)%Z).

(** The [formData] object as it is handed to [createBug] and
    [updateBug]. *)
Definition form_object (fd : formData) : value :=
  VObj [ (lit "title", VStr (form_title fd));
         (lit "description", VStr (form_description fd));
         (lit "status", VStr (form_status fd));
         (lit "priority", VStr (form_priority fd));
         (lit "reporter", VStr (form_reporter fd)) ].

(** [handleSubmit], up to the [await]: [None] when [validate()] fails and
    the handler returns, otherwise the call it makes to the context;
    [bug] is the bug being edited, if any. *)
Definition handleSubmit (bug : option bug) (fd : formData)
  (p : BugContext.provider) : option (result BugContext.provider) :=
  if negb (snd (validate fd)) then None
  else Some match bug with
            | Some b => BugContext.updateBug (_id b) (form_object fd) p
            | None => BugContext.createBug (form_object fd) p
            end.

(** ** BugList.jsx *)

(** The three selects that call [handleFilterChange]. *)
Inductive filterType := ByStatus | ByPriority | BySort.

(** [handleFilterChange(filterType, value)]: the object passed to
    [updateFilters].  [filters] is the object the render received,
    [fresh] names the new object; a key whose value is [undefined] is
    deleted, which an absent field stands for. *)
Definition handleFilterChange (fresh : nat) (filters : BugContext.filterSel)
  (filterType : filterType) (value : jstring) : BugContext.filterSel :=
  let chosen := if jstr_eqb value [] then None else Some value in
  match filterType with
  | ByStatus =>
      BugContext.mkFilters fresh chosen (BugContext.f_priority filters)
                           (BugContext.f_sort filters)
  | ByPriority =>
      BugContext.mkFilters fresh (BugContext.f_status filters) chosen
                           (BugContext.f_sort filters)
  | BySort =>
      BugContext.mkFilters fresh (BugContext.f_status filters)
                           (BugContext.f_priority filters) chosen
  end.

(** [clearFilters()]: the object passed to [updateFilters]. *)
Definition clearFilters (fresh : nat) : BugContext.filterSel :=
  BugContext.mkFilters fresh None None None.

(** What a select shows: [filters.x || '']. *)
Definition shown (selection : option jstring) : jstring :=
  match selection with
  | Some v => if jstr_eqb v [] then lit "" else v
  | None => lit ""
  end.

End Components.

(* ===================================================================== *)
(** * Further vocabulary                                                  *)
(* ===================================================================== *)

Module Notions.
Import JS BugModel BugController.

(** The identifiers of a local collection, in order. *)
Definition ids (l : list bug) : list jstring := List.map _id l.

(** Events as a store that keeps identifiers unique causes them: a load
    brings no identifier twice, and an update answers with the record it
    was asked to update. *)
Definition faithful (e : BugContext.event) : Prop :=
  match e with
  | BugContext.LoadResolved data => NoDup (ids data)
  | BugContext.UpdateResolved id updatedBug => _id updatedBug = id
  | _ => True
  end.

(** The two shapes of a reply body: success with data, or failure with an
    error text. *)
Definition envelope (r : reply) : Prop :=
  match r with
  | Json code b =>
      (success b = true /\ (code = 200 \/ code = 201)%Z
       /\ data b <> None /\ error b = None)
      \/ (success b = false /\ (code = 400 \/ code = 404)%Z
          /\ data b = None /\ error b <> None)
  | Next _ => True
  end.

(** An error the handlers of [bugController.js] deal with themselves. *)
Definition handled (e : exn) : bool :=
  jstr_eqb (ename e) (lit "CastError")
  || jstr_eqb (ename e) (lit "ValidationError").

(** Elapsed whole seconds, as [getRelativeTime] computes them. *)
Definition elapsed (now dateObj : Z) : Z := ((now - dateObj) / 1000)%Z.

(** The names [errorHandler] has a rule for. *)
Definition ruled_names : list string :=
  [ "CastError"; "ValidationError"; "MongoServerError"; "MongoError";
    "JsonWebTokenError"; "TokenExpiredError" ]%string.

Definition ruled (err : Middleware.failure) : bool :=
  existsb (Middleware.named err) ruled_names
  || Middleware.duplicate_key err.

Definition is_application_entry (l : Middleware.log_entry) : bool :=
  match l with
  | Middleware.logApplicationError _ _ => true
  | _ => false
  end.

(** The filter a select of [BugList] stands for. *)
Definition selection (t : Components.filterType)
  (f : BugContext.filterSel) : option jstring :=
  match t with
  | Components.ByStatus => BugContext.f_status f
  | Components.ByPriority => BugContext.f_priority f
  | Components.BySort => BugContext.f_sort f
  end.

(** [req.query.name] for a query string with the given decoded
    parameters, no name occurring twice. *)
Definition req_query (params : list (jstring * jstring)) (name : string)
  : value :=
  match List.find (fun kv => jstr_eqb (fst kv) (lit name)) params with
  | Some kv => VStr (snd kv)
  | None => VUndefined
  end.

(** The [query] and [sortBy] of [getBugs] for a filter selection. *)
Definition store_query (f : BugContext.filterSel)
  : list (jstring * value) :=
  List.map (fun kv => (fst kv, VStr (snd kv)))
    (BugService.parameter "status" (BugContext.f_status f)
     ++ BugService.parameter "priority" (BugContext.f_priority f)).

Definition store_sort (f : BugContext.filterSel) : jstring :=
  match BugContext.f_sort f with
  | Some v =>
      if jstr_eqb v (lit "oldest") then lit "createdAt"
      else if jstr_eqb v (lit "priority") then lit "-priority"
      else lit "-createdAt"
  | None => lit "-createdAt"
  end.

(** The events in which an awaited call of the provider completes. *)
Definition completion (e : BugContext.event) : bool :=
  match e with
  | BugContext.LoadResolved _ | BugContext.LoadRejected _
  | BugContext.CreateResolved _ | BugContext.CreateRejected _
  | BugContext.UpdateResolved _ _ | BugContext.UpdateRejected _
  | BugContext.DeleteResolved _ | BugContext.DeleteRejected _ => true
  | _ => false
  end.

(** A form filled in for a new bug. *)
Definition login_form : Components.formData :=
  Components.mkForm (lit "Login fails") (lit "Nobody can sign in")
                    (lit "open") (lit "high") (lit "Ann").

(** The provider [after] a call that was rejected with [err] in state
    [p]: collection and requests untouched, [loading] off, and the error
    cell holding the message of [err], or [fallback] when that is empty;
    never the empty text. *)
Definition rejected_with (p after : BugContext.provider) (err : exn)
  (fallback : jstring) : Prop :=
  BugContext.bugs (BugContext.now after) = BugContext.bugs (BugContext.now p)
  /\ BugContext.loading (BugContext.now after) = false
  /\ BugContext.sent after = BugContext.sent p
  /\ BugContext.error (BugContext.now after)
     = Some (if jstr_eqb (emessage err) [] then fallback else emessage err)
  /\ BugContext.error (BugContext.now after) <> Some [].

(** ** The reply of a handler as the client receives it *)
Section Wire.

(** The own properties of the JSON of a stored document. *)
Variable document : bug -> list (jstring * value).

Definition payload_json (p : payload) : value :=
  match p with
  | OneBug b => VObj (document b)
  | Bugs l => VArr (List.map (fun b => VObj (document b)) l)
  end.

(** The object literal handed to [res.json], keys in source order. *)
Definition body_json (b : body) : value :=
  VObj ([ (lit "success", VBool (success b)) ]
        ++ match count b with
           | Some n => [ (lit "count", VNum (Int n)) ]
           | None => []
           end
        ++ match data b with
           | Some p => [ (lit "data", payload_json p) ]
           | None => []
           end
        ++ match error b with
           | Some text => [ (lit "error", VStr text) ]
           | None => []
           end).

(** A reply sent with [res.status(code).json(body)], as [fetch] resolves
    it; [statusText] is the reason phrase of the status line. *)
Definition over_http (statusText : jstring) (code : Z) (b : body)
  : BugService.fetched :=
  BugService.Responded code statusText (Ok (body_json b)).

End Wire.

End Notions.

(* ===================================================================== *)
(** * Facts about strings and property keys                               *)
(* ===================================================================== *)

Import JS.

Lemma jstr_eqbP (a b : jstring) : reflect (a = b) (jstr_eqb a b).
Proof.
  revert b; induction a as [|x a IH]; intros [|y b]; simpl;
    try (constructor; congruence).
  destruct (N.eqb_spec x y) as [->|Hxy]; simpl.
  - destruct (IH b) as [->|Hab]; constructor; congruence.
  - constructor; congruence.
Qed.

Lemma jstr_eqb_refl (a : jstring) : jstr_eqb a a = true.
Proof. destruct (jstr_eqbP a a); congruence. Qed.

Lemma jstr_eqb_sym (a b : jstring) : jstr_eqb a b = jstr_eqb b a.
Proof.
  destruct (jstr_eqbP a b), (jstr_eqbP b a); congruence.
Qed.

Lemma trim_start_length (s : jstring) :
  (List.length (trim_start s) <= List.length s)%nat.
Proof.
  induction s as [|c s IH]; simpl; [lia|].
  destruct (is_whitespace c); simpl; lia.
Qed.

Lemma trim_length (s : jstring) :
  (str_length (trim s) <= str_length s)%Z.
Proof.
  unfold str_length, trim, trim_end.
  rewrite length_rev.
  pose proof (trim_start_length (rev (trim_start s))) as H1.
  rewrite length_rev in H1.
  pose proof (trim_start_length s). lia.
Qed.

Lemma digit_numeric_head (n : N) : numeric_head (48 + n mod 10)%N = true.
Proof.
  unfold numeric_head.
  assert (n mod 10 < 10)%N as Hlt by (apply N.mod_lt; discriminate).
  generalize dependent (n mod 10)%N; intros d Hlt.
  destruct (N.leb_spec 48 (48 + d)) as [_|Hlo]; [|lia].
  destruct (N.leb_spec (48 + d) 57) as [_|Hhi]; [reflexivity|lia].
Qed.

Lemma digits_aux_head (fuel : nat) (n : N) (acc : jstring) :
  starts_numeric acc -> starts_numeric (digits_aux fuel n acc).
Proof.
  revert n acc; induction fuel as [|fuel IH]; intros n acc Hacc; simpl; auto.
  assert (starts_numeric ((48 + n mod 10)%N :: acc)) as Hhead
      by (eexists; eexists; split; [reflexivity|apply digit_numeric_head]).
  destruct (n / 10 =? 0)%N; auto.
Qed.

Lemma digits_head (n : N) : starts_numeric (digits n).
Proof.
  unfold digits; simpl.
  assert (starts_numeric [(48 + n mod 10)%N]) as Hhead
      by (eexists; eexists; split; [reflexivity|apply digit_numeric_head]).
  destruct (n / 10 =? 0)%N; auto using digits_aux_head.
Qed.

Lemma number_to_string_head (n : number) :
  starts_numeric (number_to_string n).
Proof.
  destruct n as [|[|]|z|[|] lead rest]; simpl;
    try (eexists; eexists; split; [reflexivity|reflexivity]).
  - destruct (z <? 0)%Z.
    + eexists; eexists; split; [reflexivity|reflexivity].
    + apply digits_head.
  - eexists; eexists; split; [reflexivity|apply digit_numeric_head].
Qed.

(** The names in the status and priority tables start with a lower-case
    letter, so no number renders as one of them. *)
Lemma numeric_key_not_own (props : list (jstring * value)) (s : jstring) :
  starts_numeric s ->
  forallb (fun kv => match fst kv with
                     | c :: _ => negb (numeric_head c)
                     | [] => true
                     end) props = true ->
  own_property props s = None.
Proof.
  intros (c & rest & -> & Hc).
  induction props as [|[k v] props IH]; simpl; intros Hall; [reflexivity|].
  apply andb_true_iff in Hall as [Hk Hall].
  destruct (jstr_eqbP k (c :: rest)) as [->|_]; [|auto].
  simpl in Hk. rewrite Hc in Hk. discriminate.
Qed.

(* ===================================================================== *)
(** * bugUtils.js: status transitions                                     *)
(* ===================================================================== *)

Import BugUtils BugModel Spec.

Lemma includes_validStatuses_name (v : value) :
  includes validStatuses v
  = match v with VStr s => status_name s | _ => false end.
Proof.
  unfold includes, validStatuses, status_name.
  destruct v; cbn [existsb same_value_zero]; try reflexivity.
  rewrite orb_false_r, orb_assoc.
  now rewrite (jstr_eqb_sym s_open), (jstr_eqb_sym s_in_progress),
    (jstr_eqb_sym s_resolved).
Qed.

Lemma status_name_iff (s : jstring) :
  status_name s = true <-> is_status (VStr s).
Proof.
  unfold status_name, is_status.
  destruct (jstr_eqbP s s_open) as [->|H1]; [intuition|].
  destruct (jstr_eqbP s s_in_progress) as [->|H2]; [intuition|].
  destruct (jstr_eqbP s s_resolved) as [->|H3]; [intuition|].
  simpl; split; [discriminate|].
  intros [H|[H|H]]; congruence.
Qed.

Lemma includes_validStatuses (v : value) :
  includes validStatuses v = true <-> is_status v.
Proof.
  rewrite includes_validStatuses_name.
  destruct v; try (split; [discriminate|intros [H|[H|H]]; discriminate]).
  apply status_name_iff.
Qed.

Lemma not_status_not_included (v : value) :
  ~ is_status v -> includes validStatuses v = false.
Proof.
  intros H. destruct (includes validStatuses v) eqn:E; [|reflexivity].
  apply includes_validStatuses in E. contradiction.
Qed.

(** On the enumeration the transition function is decided by evaluation. *)
Lemma transition_on_statuses (a b : value) :
  is_status a -> is_status b ->
  (a = b /\ isValidStatusTransition a b = Ok (VBool false))
  \/ (a <> b /\ isValidStatusTransition a b = Ok (VBool true)).
Proof.
  intros [-> | [-> | ->]] [-> | [-> | ->]];
    first [ left; split; reflexivity
          | right; split;
            [ intros H; injection H; vm_compute; discriminate
            | reflexivity ] ].
Qed.

Lemma transition_outside_statuses (a b : value) :
  ~ is_status a \/ ~ is_status b ->
  isValidStatusTransition a b = Ok (VBool false).
Proof.
  unfold isValidStatusTransition.
  intros [H|H]; apply not_status_not_included in H; rewrite H.
  - reflexivity.
  - rewrite orb_true_r. reflexivity.
Qed.


(** C2.  On the status enumeration [isValidStatusTransition(a, b)] is true
    exactly when [a] and [b] differ, and false when they are equal; when
    [a] or [b] is not a status the result is false. *)
Theorem C2_transition_iff_distinct (a b : value) :
  (is_status a -> is_status b ->
     (isValidStatusTransition a b = Ok (VBool true) <-> a <> b)
     /\ (isValidStatusTransition a b = Ok (VBool false) <-> a = b))
  /\ (~ is_status a \/ ~ is_status b ->
       isValidStatusTransition a b = Ok (VBool false)).
Proof.
  split; [|apply transition_outside_statuses].
  intros Ha Hb.
  destruct (transition_on_statuses Ha Hb) as [[Heq H]|[Hneq H]]; rewrite H.
  - split; split; intros; try discriminate; congruence.
  - split; split; intros; try discriminate; congruence.
Qed.

Lemma C2_transition_iff_distinct_witness :
  isValidStatusTransition (VStr s_resolved) (VStr s_open) = Ok (VBool true)
  /\ isValidStatusTransition (VStr s_open) (VStr s_open) = Ok (VBool false)
  /\ isValidStatusTransition VNull (VStr s_open) = Ok (VBool false).
Proof.
  assert (is_status (VStr s_resolved)) as Hr by (right; right; reflexivity).
  assert (is_status (VStr s_open)) as Ho by (left; reflexivity).
  split; [|split].
  - apply (proj1 (C2_transition_iff_distinct (VStr s_resolved) (VStr s_open))
             Hr Ho).
    intros H; injection H; vm_compute; discriminate.
  - apply (proj1 (C2_transition_iff_distinct (VStr s_open) (VStr s_open))
             Ho Ho).
    reflexivity.
  - apply (proj2 (C2_transition_iff_distinct VNull (VStr s_open))).
    left. intros [H|[H|H]]; discriminate H.
Defined.

(** ** The two transition functions compared *)

Lemma no_own_no_member (current proposed : value) (k : jstring) :
  to_string current = Ok k ->
  own_property validTransitions k = None ->
  offers current proposed = false.
Proof.
  intros Hk Hown. unfold offers, getValidNextStatuses, lookup.
  rewrite Hk. cbn [bind]. unfold property. rewrite Hown.
  unfold inherited.
  destruct (is_method k); [reflexivity|].
  destruct (jstr_eqb _ (lit "__proto__")); reflexivity.
Qed.

Lemma own_validTransitions_string (s : jstring) :
  status_name s = false -> own_property validTransitions s = None.
Proof.
  unfold status_name, validTransitions. cbn [own_property].
  rewrite (jstr_eqb_sym s_open), (jstr_eqb_sym s_in_progress),
    (jstr_eqb_sym s_resolved).
  intros H. apply orb_false_iff in H as [H H3].
  apply orb_false_iff in H as [H1 H2].
  now rewrite H1, H2, H3.
Qed.

Lemma own_validTransitions_number (n : number) :
  own_property validTransitions (number_to_string n) = None.
Proof.
  apply numeric_key_not_own; [apply number_to_string_head|reflexivity].
Qed.

(** A value outside the enumeration is in none of the rows of the table. *)
Lemma row_excludes_non_status (proposed : value) (row : list jstring) :
  includes validStatuses proposed = false ->
  forallb status_name row = true ->
  includes (List.map VStr row) proposed = false.
Proof.
  rewrite includes_validStatuses_name. intros Hp Hrow. unfold includes.
  destruct proposed as [| |b|n|s|elems|props|name];
    try (clear; induction row as [|r row IH]; simpl; auto; fail).
  induction row as [|r row IH]; [reflexivity|].
  simpl in Hrow. apply andb_true_iff in Hrow as [Hr Hrow].
  cbn [List.map existsb same_value_zero].
  rewrite (IH Hrow), orb_false_r.
  destruct (jstr_eqbP r s) as [->|_]; [congruence|reflexivity].
Qed.

Lemma agree_on_status (current proposed : value) :
  is_status current -> agree current proposed.
Proof.
  intros Hc. unfold agree.
  destruct (includes validStatuses proposed) eqn:Ep.
  - apply includes_validStatuses in Ep.
    destruct Hc as [-> | [-> | ->]], Ep as [-> | [-> | ->]];
      vm_compute; split; congruence.
  - assert (isValidStatusTransition current proposed = Ok (VBool false)) as ->.
    { apply transition_outside_statuses. right.
      intros H. apply includes_validStatuses in H. congruence. }
    assert (offers current proposed = false) as ->.
    { destruct Hc as [-> | [-> | ->]];
        [ change (includes (List.map VStr [s_in_progress; s_resolved]) proposed = false)
        | change (includes (List.map VStr [s_open; s_resolved]) proposed = false)
        | change (includes (List.map VStr [s_open; s_in_progress]) proposed = false) ];
        apply row_excludes_non_status; auto. }
    split; discriminate.
Qed.

Lemma agree_without_own (current proposed : value) (k : jstring) :
  ~ is_status current ->
  to_string current = Ok k ->
  own_property validTransitions k = None ->
  agree current proposed.
Proof.
  intros Hc Hk Hown. unfold agree.
  rewrite (no_own_no_member current proposed Hk Hown).
  rewrite transition_outside_statuses by (left; exact Hc).
  split; discriminate.
Qed.

(** C10, as amended.  For every pair [(current, proposed)] in which
    [current] is a primitive value (undefined, null, a boolean, a number
    or a string), [isValidStatusTransition(current, proposed)] is true
    exactly when [proposed] is a member of the list returned by
    [getValidNextStatuses(current)]. *)
Theorem C10_agree_on_primitives (current proposed : value) :
  primitive current = true -> agree current proposed.
Proof.
  intros Hprim.
  destruct current as [| |b|n|s|elems|props|name]; try discriminate Hprim.
  - eapply agree_without_own;
      [intros [H|[H|H]]; discriminate|reflexivity|reflexivity].
  - eapply agree_without_own;
      [intros [H|[H|H]]; discriminate|reflexivity|reflexivity].
  - eapply agree_without_own;
      [intros [H|[H|H]]; discriminate|reflexivity|].
    destruct b; reflexivity.
  - eapply agree_without_own;
      [intros [H|[H|H]]; discriminate|reflexivity|].
    apply own_validTransitions_number.
  - destruct (status_name s) eqn:Es.
    + apply agree_on_status, status_name_iff, Es.
    + eapply agree_without_own.
      * intros H. apply status_name_iff in H. congruence.
      * reflexivity.
      * apply own_validTransitions_string, Es.
Qed.

Lemma C10_agree_on_primitives_witness :
  agree (VStr s_open) (VStr s_resolved) /\ agree VNull (VStr s_open).
Proof.
  split.
  - apply (C10_agree_on_primitives (VStr s_open) (VStr s_resolved)).
    reflexivity.
  - apply (C10_agree_on_primitives VNull (VStr s_open)). reflexivity.
Defined.

(** C10, as stated, fails on the array [['open']]: as a property key it
    reads [open], so [getValidNextStatuses] returns the row of [open],
    which contains [resolved], while [isValidStatusTransition] rejects the
    array as not being a status. *)
Lemma C10_counterexample :
  ~ agree (VArr [VStr s_open]) (VStr s_resolved).
Proof.
  unfold agree. intros [_ H].
  assert (offers (VArr [VStr s_open]) (VStr s_resolved) = true) as Hm
      by reflexivity.
  apply H in Hm. vm_compute in Hm. discriminate Hm.
Qed.

(* ===================================================================== *)
(** * bugUtils.js: priority weights                                       *)
(* ===================================================================== *)

Lemma numeric_key_not_listed (names : list jstring) (s : jstring) :
  starts_numeric s ->
  forallb (fun k => match k with
                    | c :: _ => negb (numeric_head c)
                    | [] => true
                    end) names = true ->
  existsb (jstr_eqb s) names = false.
Proof.
  intros (c & rest & -> & Hc).
  induction names as [|k names IH]; cbn [existsb forallb]; intros Hall;
    [reflexivity|].
  apply andb_true_iff in Hall as [Hk Hall].
  rewrite (IH Hall), orb_false_r.
  destruct (jstr_eqbP (c :: rest) k) as [<-|_]; [|reflexivity].
  simpl in Hk. rewrite Hc in Hk. discriminate.
Qed.

Lemma numeric_key_not_inherited (s : jstring) :
  starts_numeric s -> inherited s = VUndefined.
Proof.
  intros Hs. unfold inherited.
  unfold is_method.
  rewrite (numeric_key_not_listed object_prototype_methods Hs)
    by reflexivity.
  destruct Hs as (c & rest & -> & Hc).
  destruct (jstr_eqbP (c :: rest) (lit "__proto__")) as [E|_];
    [|reflexivity].
  injection E as -> _. discriminate Hc.
Qed.

Lemma own_weights_string (s : jstring) :
  priority_name s = false -> own_property weights s = None.
Proof.
  unfold priority_name, weights. cbn [own_property].
  rewrite (jstr_eqb_sym s_low), (jstr_eqb_sym s_medium),
    (jstr_eqb_sym s_high), (jstr_eqb_sym s_critical).
  intros H. apply orb_false_iff in H as [H H4].
  apply orb_false_iff in H as [H H3].
  apply orb_false_iff in H as [H1 H2].
  now rewrite H1, H2, H3, H4.
Qed.

(** The weight table on the enumeration. *)
Lemma weights_on_priorities :
  getPriorityWeight (VStr s_low) = Ok (VNum (Int 1))
  /\ getPriorityWeight (VStr s_medium) = Ok (VNum (Int 2))
  /\ getPriorityWeight (VStr s_high) = Ok (VNum (Int 3))
  /\ getPriorityWeight (VStr s_critical) = Ok (VNum (Int 4)).
Proof. repeat split. Qed.


(** Every primitive that is not a string weighs zero. *)
Lemma weight_zero_non_string (p : value) :
  primitive p = true -> is_string p = false ->
  getPriorityWeight p = Ok (VNum (Int 0)).
Proof.
  intros Hprim Hstr.
  destruct p as [| |b|n|s|elems|props|name]; try discriminate;
    try reflexivity.
  - destruct b; reflexivity.
  - unfold getPriorityWeight, lookup, property. cbn [to_string bind].
    rewrite numeric_key_not_own;
      [|apply number_to_string_head|reflexivity].
    rewrite numeric_key_not_inherited by apply number_to_string_head.
    reflexivity.
Qed.

(** An inherited name does not weigh zero: the lookup finds the method. *)
Lemma weight_of_inherited_name :
  getPriorityWeight (VStr (lit "toString")) = Ok (VFun (lit "toString")).
Proof. reflexivity. Qed.

(* ===================================================================== *)
(** * bugUtils.js: validateBugData                                        *)
(* ===================================================================== *)

Lemma missing_text_rule (v : value) : missing_text v = text_violated v.
Proof.
  unfold missing_text, text_violated.
  destruct v as [| |b|n|s|elems|props|name]; cbn [is_string negb];
    try (rewrite orb_true_r; reflexivity).
  cbn [to_boolean as_string orb]. rewrite negb_involutive, orb_false_r.
  unfold str_length.
  destruct s as [|c s]; [reflexivity|]. cbn [jstr_eqb orb].
  destruct (trim (c :: s)); reflexivity.
Qed.

Lemma includes_validPriorities_name (v : value) :
  includes validPriorities v
  = match v with VStr s => priority_name s | _ => false end.
Proof.
  unfold includes, validPriorities, priority_name.
  destruct v; cbn [existsb same_value_zero]; try reflexivity.
  rewrite orb_false_r, !orb_assoc.
  now rewrite (jstr_eqb_sym s_low), (jstr_eqb_sym s_medium),
    (jstr_eqb_sym s_high), (jstr_eqb_sym s_critical).
Qed.

(** Every value other than [undefined] and [null] can be read. *)
Lemma get_field_defined (v : value) (f : field) :
  v <> VUndefined -> v <> VNull -> get_field v f = Ok (read v f).
Proof.
  intros Hu Hn. unfold read.
  destruct v; try congruence; reflexivity.
Qed.

(** [validateBugData] on a readable candidate: one block of messages per
    field, in source order. *)
Lemma validateBugData_blocks (v : value) :
  v <> VUndefined -> v <> VNull ->
  validateBugData v =
  let errs :=
    title_messages (read v Title)
    ++ (if missing_text (read v Description) then [msg_description] else [])
    ++ (if missing_text (read v Reporter) then [msg_reporter] else [])
    ++ (if to_boolean (read v Status)
           && negb (includes validStatuses (read v Status))
        then [msg_status] else [])
    ++ (if to_boolean (read v Priority)
           && negb (includes validPriorities (read v Priority))
        then [msg_priority] else []) in
  Ok {| valid := (Z.of_nat (List.length errs) =? 0)%Z; errors := errs |}.
Proof.
  intros Hu Hn. unfold validateBugData, title_messages, push.
  rewrite !(get_field_defined _ Hu Hn). cbn [bind].
  destruct (missing_text (read v Title));
    [|destruct (200 <? str_length (as_string (read v Title)))%Z];
    destruct (missing_text (read v Description));
    destruct (missing_text (read v Reporter));
    destruct (to_boolean (read v Status)
              && negb (includes validStatuses (read v Status)));
    destruct (to_boolean (read v Priority)
              && negb (includes validPriorities (read v Priority)));
    reflexivity.
Qed.

Lemma title_block (t : value) :
  title_messages t = [] /\ check Title t = false
  \/ (exists m, title_messages t = [m]
                /\ field_of_message m = Some Title /\ check Title t = true).
Proof.
  unfold title_messages. cbn [check]. rewrite missing_text_rule.
  destruct (text_violated t) eqn:Ev.
  - right. exists msg_title_required. repeat split.
  - destruct t as [| |b|n|s|elems|props|name]; try discriminate Ev.
    cbn [as_string long_as_given orb].
    destruct (200 <? str_length s)%Z.
    + right. exists msg_title_length. repeat split.
    + left. split; reflexivity.
Qed.









(** ** The title length limit *)

(** A title longer than 200 characters after trimming is reported with the
    message naming the limit. *)
Lemma title_over_limit_after_trim (s : jstring) :
  (200 < str_length (trim s))%Z ->
  title_messages (VStr s) = [msg_title_length].
Proof.
  intros Hlen. unfold title_messages.
  rewrite missing_text_rule. cbn [text_violated as_string].
  destruct (trim s) eqn:Et; [discriminate Hlen|].
  pose proof (trim_length s) as Hle. rewrite Et in Hle.
  destruct (Z.ltb_spec 200 (str_length s)); [reflexivity|lia].
Qed.

(** A title of at most 200 characters as given, and non-empty after
    trimming, is not reported. *)
Lemma title_within_raw_limit (s : jstring) :
  (0 < str_length (trim s))%Z -> (str_length s <= 200)%Z ->
  title_messages (VStr s) = [].
Proof.
  intros Hne Hlen. unfold title_messages.
  rewrite missing_text_rule. cbn [text_violated as_string].
  destruct (trim s); [discriminate Hne|].
  destruct (Z.ltb_spec 200 (str_length s)); [lia|reflexivity].
Qed.

(** C4.  The title [a] followed by 200 spaces has one character after
    trimming, and the schema's title path accepts it, yet
    [validateBugData] measures the untrimmed string and reports that the
    title exceeds 200 characters. *)
Theorem C4_length_measured_before_trim :
  trim padded_title = lit "a"
  /\ title_path_error padded_title = None
  /\ validateBugData padded_candidate
     = Ok {| valid := false; errors := [msg_title_length] |}.
Proof. repeat split; vm_compute; reflexivity. Qed.

(* ===================================================================== *)
(** * bugUtils.js: which inputs make the functions throw                  *)
(* ===================================================================== *)



(** Every primitive has a rendering as a property key. *)
Lemma primitive_converts (p : value) :
  primitive p = true -> exists k, to_string p = Ok k.
Proof.
  destruct p; try discriminate; intros _; eexists; reflexivity.
Qed.



(* ===================================================================== *)
(** * bugController.js                                                    *)
(* ===================================================================== *)

Import BugController.

(** C6.  When the store rejects the identifier of a read or an update with
    a [CastError], the handler answers exactly as it does on a miss: 404
    with the text [Bug not found], whatever the message of the store's
    error, and the error is not passed on to [next]. *)
Theorem C6_malformed_id_is_not_found
  (Bug : Model) (id : jstring) (body : value) (e : exn) :
  ename e = lit "CastError" ->
  (findById Bug id = Throw e -> getBug Bug id = not_found)
  /\ (findByIdAndUpdate Bug id body = Throw e ->
       updateBug Bug id body = not_found)
  /\ (findById Bug id = Ok None -> getBug Bug id = not_found)
  /\ (findByIdAndUpdate Bug id body = Ok None ->
       updateBug Bug id body = not_found)
  /\ not_found
     = Json 404 (mkBody false None None (Some (lit "Bug not found"))).
Proof.
  intros Hname. repeat apply conj.
  - intros H. unfold getBug. rewrite H, Hname. reflexivity.
  - intros H. unfold updateBug. rewrite H, Hname. reflexivity.
  - intros H. unfold getBug. rewrite H. reflexivity.
  - intros H. unfold updateBug. rewrite H. reflexivity.
  - reflexivity.
Qed.

Lemma C6_malformed_id_is_not_found_witness :
  getBug (Store.collection [low_bug]) (lit "invalid-id-format") = not_found
  /\ updateBug (Store.collection [low_bug]) (lit "invalid-id-format")
       (VObj [(lit "title", VStr (lit "Updated Title"))])
     = not_found.
Proof.
  pose proof (@C6_malformed_id_is_not_found
                (Store.collection [low_bug]) (lit "invalid-id-format")
                (VObj [(lit "title", VStr (lit "Updated Title"))])
                (Store.cast_error (lit "invalid-id-format")) eq_refl)
    as (Hget & Hput & _).
  split; [apply Hget|apply Hput]; reflexivity.
Defined.

(** An error of any other name goes to [next], where the error middleware
    takes over. *)
Lemma getBug_other_errors_forwarded (Bug : Model) (id : jstring) (e : exn) :
  findById Bug id = Throw e -> ename e <> lit "CastError" ->
  getBug Bug id = Next e.
Proof.
  intros H Hname. unfold getBug. rewrite H.
  destruct (jstr_eqbP (ename e) (lit "CastError")); [contradiction|reflexivity].
Qed.

(** C8.  With [sort=priority] the handler asks the store for [-priority],
    the priority strings in descending order: [low] sorts before
    [critical], so the weights of the returned records, 1 then 4, are not
    non-increasing. *)
Theorem C8_priority_sort_is_alphabetical :
  getBugs (Store.collection [critical_bug; low_bug])
          VUndefined VUndefined (VStr (lit "priority"))
  = Json 200 (mkBody true (Some 2%Z) (Some (Bugs [low_bug; critical_bug]))
                     None)
  /\ List.map weight [low_bug; critical_bug] = [1%Z; 4%Z]
  /\ non_increasing (List.map weight [low_bug; critical_bug]) = false.
Proof. repeat split. Qed.

(** The order the four priorities come back in. *)
Lemma priority_strings_descending :
  List.map priority
    (Store.sort (lit "-priority")
       [ mkBug (lit "1") [] [] s_open s_low [] 0 0;
         mkBug (lit "2") [] [] s_open s_medium [] 0 0;
         mkBug (lit "3") [] [] s_open s_high [] 0 0;
         mkBug (lit "4") [] [] s_open s_critical [] 0 0 ])
  = [s_medium; s_low; s_high; s_critical].
Proof. reflexivity. Qed.

(* ===================================================================== *)
(** * BugContext.jsx: mutating calls                                      *)
(* ===================================================================== *)

Import BugContext.

(** [createBug] refuses to start while the rendered [loading] flag is set,
    and then makes no service call. *)
Lemma createBug_guard (bugData : value) (p : provider) :
  loading (seen p) = true ->
  createBug bugData p = Throw (Error (lit "Request already in progress"))
  /\ sent (step p (Create bugData)) = sent p.
Proof.
  intros H. unfold step, createBug. rewrite H. split; reflexivity.
Qed.

(** [updateBug] and [deleteBug] have no such guard: they always start. *)
Lemma updateBug_always_starts (id : jstring) (bugData : value) (p : provider) :
  exists p', updateBug id bugData p = Ok p'
             /\ sent p' = sent p ++ [ModifyBug id bugData].
Proof. eexists; split; reflexivity. Qed.

Lemma deleteBug_always_starts (id : jstring) (p : provider) :
  exists p', deleteBug id p = Ok p' /\ sent p' = sent p ++ [RemoveBug id].
Proof. eexists; split; reflexivity. Qed.

(** The guard reads the flag of the last render: a second [createBug]
    issued before the provider re-renders is not refused. *)
Lemma createBug_twice_before_render :
  sent (run idle [Create login_report; Create login_report])
  = sent idle ++ [AddBug login_report; AddBug login_report].
Proof. reflexivity. Qed.

(** C1.  With a create call in flight and the provider re-rendered
    ([loading] is true), a further [createBug] fails fast, but [updateBug]
    and [deleteBug] go ahead and call the service. *)
Theorem C1_update_and_delete_are_not_guarded :
  loading (seen creating) = true
  /\ sent creating
     = [FetchBugs (filters initial_cells); AddBug login_report]
  /\ createBug login_report creating
     = Throw (Error (lit "Request already in progress"))
  /\ sent (step creating
             (Update (_id low_bug) (VObj [(lit "status", VStr s_resolved)])))
     = sent creating
       ++ [ModifyBug (_id low_bug) (VObj [(lit "status", VStr s_resolved)])]
  /\ sent (step creating (Delete (_id low_bug)))
     = sent creating ++ [RemoveBug (_id low_bug)].
Proof. repeat split. Qed.

(** ** Reconciliation after a create *)

Lemma find_none_count (id : jstring) (l : list bug) :
  List.find (fun b => jstr_eqb (_id b) id) l = None <-> count_id id l = 0%nat.
Proof.
  unfold count_id. induction l as [|b l IH]; simpl; [tauto|].
  destruct (jstr_eqb (_id b) id); simpl; [split; discriminate|exact IH].
Qed.

Lemma createBug_resolved_bugs (newBug : bug) (p : provider) :
  bugs (now (createBug_resolved newBug p))
  = match List.find (fun b => jstr_eqb (_id b) (_id newBug)) (bugs (now p)) with
    | Some _ => bugs (now p)
    | None => newBug :: bugs (now p)
    end.
Proof. reflexivity. Qed.

(** C7.  When a create succeeds, the new record is put in front of the
    local collection if no record carries its identifier, and the
    collection is left as it was otherwise; so the same success arriving
    twice changes nothing the second time and leaves exactly one record
    with that identifier. *)
Theorem C7_create_success_inserts_once (newBug : bug) (p : provider) :
  (count_id (_id newBug) (bugs (now p)) <> 0%nat ->
     bugs (now (createBug_resolved newBug p)) = bugs (now p))
  /\ (count_id (_id newBug) (bugs (now p)) = 0%nat ->
       bugs (now (createBug_resolved newBug p)) = newBug :: bugs (now p))
  /\ bugs (now (createBug_resolved newBug (createBug_resolved newBug p)))
     = bugs (now (createBug_resolved newBug p))
  /\ (count_id (_id newBug) (bugs (now p)) = 0%nat ->
       count_id (_id newBug)
         (bugs (now (createBug_resolved newBug
                       (createBug_resolved newBug p)))) = 1%nat).
Proof.
  assert (forall q, count_id (_id newBug) (bugs (now q)) <> 0%nat ->
                    bugs (now (createBug_resolved newBug q)) = bugs (now q))
    as Hskip.
  { intros q Hq. rewrite createBug_resolved_bugs.
    destruct (List.find _ (bugs (now q))) eqn:E; [reflexivity|].
    apply find_none_count in E. contradiction. }
  assert (forall q, count_id (_id newBug) (bugs (now q)) = 0%nat ->
                    bugs (now (createBug_resolved newBug q))
                    = newBug :: bugs (now q)) as Hadd.
  { intros q Hq. rewrite createBug_resolved_bugs.
    apply find_none_count in Hq. rewrite Hq. reflexivity. }
  assert (forall q, count_id (_id newBug)
                      (bugs (now (createBug_resolved newBug q))) <> 0%nat)
    as Hpresent.
  { intros q. destruct (Nat.eq_dec (count_id (_id newBug) (bugs (now q))) 0)
      as [Hz|Hnz].
    - rewrite (Hadd q Hz). unfold count_id. simpl.
      rewrite jstr_eqb_refl. simpl. lia.
    - rewrite (Hskip q Hnz). exact Hnz. }
  repeat apply conj.
  - apply Hskip.
  - apply Hadd.
  - apply Hskip, Hpresent.
  - intros Hz. rewrite (Hskip _ (Hpresent p)), (Hadd p Hz).
    unfold count_id in *. simpl. rewrite jstr_eqb_refl. simpl. lia.
Qed.

Lemma C7_create_success_inserts_once_witness :
  bugs (now (createBug_resolved critical_bug idle)) = [critical_bug; low_bug]
  /\ bugs (now (createBug_resolved low_bug idle)) = [low_bug]
  /\ count_id (_id critical_bug)
       (bugs (now (createBug_resolved critical_bug
                     (createBug_resolved critical_bug idle)))) = 1%nat.
Proof.
  pose proof (C7_create_success_inserts_once critical_bug idle)
    as (_ & Hadd & _ & Hone).
  pose proof (C7_create_success_inserts_once low_bug idle) as (Hskip & _).
  repeat apply conj.
  - apply Hadd. reflexivity.
  - apply Hskip. vm_compute. discriminate.
  - apply Hone. reflexivity.
Defined.

(* ===================================================================== *)
(** * BugContext.jsx: filters and reloads                                 *)
(* ===================================================================== *)




(** After the filter object changed, a render sends one reload carrying
    the current filters. *)
Lemma render_after_change (p : provider) :
  memo p <> Some (ref (filters (now p))) ->
  sent (render p) = sent p ++ [FetchBugs (filters (now p))].
Proof.
  unfold render. cbn [now memo filters sent]. intros Hstale.
  destruct (memo p) as [r|]; [|reflexivity].
  destruct (Nat.eqb_spec r (ref (filters (now p)))) as [->|_];
    [congruence|reflexivity].
Qed.







(* ===================================================================== *)
(** * More about bugUtils.js                                              *)
(* ===================================================================== *)

(** [isValidStatusTransition] does not depend on the order of its
    arguments. *)
Theorem transition_symmetric (a b : value) :
  isValidStatusTransition a b = isValidStatusTransition b a.
Proof.
  destruct (includes validStatuses a) eqn:Ea.
  - destruct (includes validStatuses b) eqn:Eb.
    + apply includes_validStatuses in Ea, Eb.
      destruct Ea as [-> | [-> | ->]], Eb as [-> | [-> | ->]]; reflexivity.
    + unfold isValidStatusTransition. rewrite Ea, Eb. reflexivity.
  - unfold isValidStatusTransition. rewrite Ea.
    destruct (includes validStatuses b); reflexivity.
Qed.

Lemma priority_name_iff (s : jstring) :
  priority_name s = true <-> is_priority (VStr s).
Proof.
  unfold priority_name, is_priority.
  destruct (jstr_eqbP s s_low) as [->|H1]; [intuition|].
  destruct (jstr_eqbP s s_medium) as [->|H2]; [intuition|].
  destruct (jstr_eqbP s s_high) as [->|H3]; [intuition|].
  destruct (jstr_eqbP s s_critical) as [->|H4]; [intuition|].
  simpl; split; [discriminate|].
  intros [H|[H|[H|H]]]; congruence.
Qed.

(** On primitives, [getPriorityWeight] returns a number from 1 to 4
    exactly when [isValidPriority] accepts the value. *)
Theorem weight_positive_iff_valid (p : value) :
  primitive p = true ->
  (isValidPriority p = true
   <-> exists z, getPriorityWeight p = Ok (VNum (Int z)) /\ (1 <= z <= 4)%Z).
Proof.
  intros Hprim. unfold isValidPriority.
  rewrite includes_validPriorities_name.
  destruct p as [| |b|n|s|elems|props|name]; try discriminate Hprim;
    try (rewrite weight_zero_non_string by reflexivity;
         split; [discriminate|intros (z & Hz & Hr); injection Hz as <-; lia]).
  destruct (priority_name s) eqn:Es.
  - split; [intros _|reflexivity].
    apply priority_name_iff in Es.
    destruct Es as [H|[H|[H|H]]]; injection H as ->;
      eexists; (split; [reflexivity|lia]).
  - split; [discriminate|]. intros (z & Hz & Hr). exfalso.
    unfold getPriorityWeight, lookup, property in Hz.
    cbn [to_string bind] in Hz.
    rewrite (own_weights_string s Es) in Hz. unfold inherited in Hz.
    destruct (is_method s); [discriminate Hz|].
    destruct (jstr_eqb s (lit "__proto__")); [discriminate Hz|].
    injection Hz as <-. lia.
Qed.

Lemma weight_positive_iff_valid_witness :
  (exists z, getPriorityWeight (VStr s_high) = Ok (VNum (Int z))
             /\ (1 <= z <= 4)%Z)
  /\ isValidPriority (VStr (lit "toString")) = false.
Proof.
  split.
  - apply (proj1 (@weight_positive_iff_valid (VStr s_high) eq_refl)).
    reflexivity.
  - reflexivity.
Defined.

(** The agreement of the two transition functions on primitives, for use
    below. *)
Lemma agree_primitive (current proposed : value) :
  primitive current = true -> agree current proposed.
Proof.
  intros Hprim.
  destruct current as [| |b|n|s|elems|props|name]; try discriminate Hprim;
    try (eapply agree_without_own;
         [intros [H|[H|H]]; discriminate
         |reflexivity
         |first [reflexivity | destruct b; reflexivity
                | apply own_validTransitions_number]]).
  destruct (status_name s) eqn:Es.
  - apply agree_on_status, status_name_iff, Es.
  - eapply agree_without_own.
    + intros H. apply status_name_iff in H. congruence.
    + reflexivity.
    + apply own_validTransitions_string, Es.
Qed.

(** [getValidNextStatuses] returns for a primitive [current], and
    whatever it offers is a status other than [current], [current] being
    itself a status. *)
Theorem next_statuses_are_other_statuses (current proposed : value) :
  primitive current = true ->
  (exists ret, getValidNextStatuses current = Ok ret)
  /\ (forall ret,
        getValidNextStatuses current = Ok ret ->
        member proposed ret = true ->
        is_status current /\ is_status proposed /\ proposed <> current).
Proof.
  intros Hprim. split.
  { destruct (primitive_converts current Hprim) as [k Hk].
    unfold getValidNextStatuses, lookup. rewrite Hk. eexists; reflexivity. }
  intros ret Hret Hmem.
  assert (offers current proposed = true) as Hoffer
      by (unfold offers; now rewrite Hret).
  clear Hret Hmem. rename Hoffer into Hmem.
  apply (@agree_primitive current proposed Hprim) in Hmem.
  destruct (includes validStatuses current) eqn:Ec.
  - destruct (includes validStatuses proposed) eqn:Ep.
    + apply includes_validStatuses in Ec, Ep.
      destruct (transition_on_statuses Ec Ep) as [[_ H]|[Hneq _]];
        [congruence|auto].
    + unfold isValidStatusTransition in Hmem.
      rewrite Ec, Ep in Hmem. discriminate Hmem.
  - unfold isValidStatusTransition in Hmem. rewrite Ec in Hmem.
    discriminate Hmem.
Qed.

Lemma next_statuses_are_other_statuses_witness :
  is_status (VStr s_open) /\ is_status (VStr s_resolved)
  /\ VStr s_resolved <> VStr s_open.
Proof.
  apply (proj2 (@next_statuses_are_other_statuses (VStr s_open)
                  (VStr s_resolved) eq_refl)
           (VArr [VStr s_in_progress; VStr s_resolved]));
    reflexivity.
Defined.

Lemma read_skips_other_key (k : jstring) (v : value)
  (props : list (jstring * value)) (f : field) :
  field_name f <> k ->
  read (VObj ((k, v) :: props)) f = read (VObj props) f.
Proof.
  intros Hk. unfold read, get_field, property. cbn [own_property].
  destruct (jstr_eqbP k (field_name f)) as [E|_]; [congruence|reflexivity].
Qed.

(** A property [validateBugData] has no rule for does not change its
    result. *)
Theorem unknown_property_ignored (k : jstring) (v : value)
  (props : list (jstring * value)) :
  (forall f, field_name f <> k) ->
  validateBugData (VObj ((k, v) :: props)) = validateBugData (VObj props).
Proof.
  intros Hk.
  rewrite !validateBugData_blocks by discriminate.
  now rewrite !read_skips_other_key by apply Hk.
Qed.

Lemma unknown_property_ignored_witness :
  validateBugData
    (VObj [ (lit "assignee", VNum (Int 7));
            (lit "title", VStr (lit "Login fails")) ])
  = validateBugData (VObj [ (lit "title", VStr (lit "Login fails")) ]).
Proof.
  apply (@unknown_property_ignored (lit "assignee") (VNum (Int 7))
           [ (lit "title", VStr (lit "Login fails")) ]).
  intros [| | | |]; vm_compute; discriminate.
Defined.

Lemma text_accepted (v : value) :
  text_violated v = false -> exists s, v = VStr s /\ trim s <> [].
Proof.
  destruct v as [| |b|n|s|elems|props|name]; try discriminate.
  cbn [text_violated]. intros H. exists s. split; [reflexivity|].
  destruct (trim s); [discriminate H|discriminate].
Qed.

(** What [validateBugData] accepts: title, description and reporter are
    strings that are not blank, the title is one the schema's title path
    accepts, and a status or priority that is present belongs to its
    enumeration. *)
Theorem accepted_candidate_is_clean (candidate : value) (r : validation) :
  validateBugData candidate = Ok r ->
  valid r = true ->
  (exists t d p,
      read candidate Title = VStr t
      /\ read candidate Description = VStr d
      /\ read candidate Reporter = VStr p
      /\ title_path_error t = None /\ trim d <> [] /\ trim p <> [])
  /\ (to_boolean (read candidate Status) = true ->
       is_status (read candidate Status))
  /\ (to_boolean (read candidate Priority) = true ->
       is_priority (read candidate Priority)).
Proof.
  intros Hok Hvalid.
  assert (candidate <> VUndefined /\ candidate <> VNull) as [Hu Hn]
      by (split; intros ->; discriminate Hok).
  rewrite (validateBugData_blocks Hu Hn) in Hok. cbv zeta in Hok.
  remember (to_boolean (read candidate Status)
            && negb (includes validStatuses (read candidate Status)))
    as bad_status eqn:Ebs.
  remember (to_boolean (read candidate Priority)
            && negb (includes validPriorities (read candidate Priority)))
    as bad_priority eqn:Ebp.
  injection Hok as <-. cbn [valid] in Hvalid.
  apply Z.eqb_eq in Hvalid.
  apply (f_equal Z.to_nat) in Hvalid. rewrite Nat2Z.id in Hvalid.
  apply length_zero_iff_nil in Hvalid.
  apply app_eq_nil in Hvalid as [Ht Hvalid].
  apply app_eq_nil in Hvalid as [Hd Hvalid].
  apply app_eq_nil in Hvalid as [Hr Hvalid].
  apply app_eq_nil in Hvalid as [Hs Hp].
  destruct bad_status; [discriminate Hs|].
  destruct bad_priority; [discriminate Hp|].
  rewrite missing_text_rule in Hd, Hr.
  destruct (text_violated (read candidate Description)) eqn:Ed;
    [discriminate Hd|].
  destruct (text_violated (read candidate Reporter)) eqn:Er;
    [discriminate Hr|].
  destruct (title_block (read candidate Title))
    as [[_ Hrule]|(m & Hm & _)]; [|rewrite Hm in Ht; discriminate Ht].
  cbn [check] in Hrule. apply orb_false_iff in Hrule as [Et Elong].
  apply text_accepted in Et as (t & Et & Htrim).
  apply text_accepted in Ed as (d & Ed & Hdtrim).
  apply text_accepted in Er as (p & Er & Hptrim).
  split; [|split].
  - exists t, d, p. repeat (split; [assumption|]). split; [|auto].
    rewrite Et in Elong. cbn [long_as_given] in Elong.
    apply Z.ltb_ge in Elong. pose proof (trim_length t) as Hle.
    unfold title_path_error.
    destruct (Z.eqb_spec (str_length (trim t)) 0) as [Hz|_].
    { exfalso. apply Htrim. unfold str_length in Hz.
      apply length_zero_iff_nil. lia. }
    destruct (Z.ltb_spec 200 (str_length (trim t))); [lia|reflexivity].
  - intros Hpres. rewrite Hpres in Ebs. cbn [andb] in Ebs.
    symmetry in Ebs. apply negb_false_iff in Ebs.
    apply includes_validStatuses, Ebs.
  - intros Hpres. rewrite Hpres in Ebp. cbn [andb] in Ebp.
    symmetry in Ebp. apply negb_false_iff in Ebp.
    rewrite includes_validPriorities_name in Ebp.
    destruct (read candidate Priority); try discriminate Ebp.
    apply priority_name_iff, Ebp.
Qed.

Lemma accepted_candidate_is_clean_witness :
  exists t d p,
    read login_report Title = VStr t
    /\ read login_report Description = VStr d
    /\ read login_report Reporter = VStr p
    /\ title_path_error t = None /\ trim d <> [] /\ trim p <> [].
Proof.
  apply (@accepted_candidate_is_clean login_report
           {| valid := true; errors := [] |}); reflexivity.
Defined.

(* ===================================================================== *)
(** * More about BugContext.jsx                                           *)
(* ===================================================================== *)

Import Notions.

Lemma count_id_zero_filter_out (id : jstring) (l : list bug) :
  count_id id l = 0%nat ->
  filter (fun bug => negb (jstr_eqb (_id bug) id)) l = l.
Proof.
  unfold count_id. induction l as [|b l IH]; simpl; [reflexivity|].
  destruct (jstr_eqb (_id b) id); simpl; [discriminate|].
  intros H. now rewrite IH.
Qed.

Lemma count_id_zero_map (id : jstring) (u : bug) (l : list bug) :
  count_id id l = 0%nat ->
  List.map (fun bug => if jstr_eqb (_id bug) id then u else bug) l = l.
Proof.
  unfold count_id. induction l as [|b l IH]; simpl; [reflexivity|].
  destruct (jstr_eqb (_id b) id); simpl; [discriminate|].
  intros H. now rewrite IH.
Qed.

Lemma update_keeps_ids (updatedBug : bug) (l : list bug) :
  ids (List.map (fun bug => if jstr_eqb (_id bug) (_id updatedBug)
                            then updatedBug else bug) l)
  = ids l.
Proof.
  unfold ids. rewrite map_map. apply map_ext_in.
  intros b _. destruct (jstr_eqbP (_id b) (_id updatedBug)); congruence.
Qed.

(** When an update succeeds the collection keeps its length; if no record
    carries the identifier nothing changes; and if the answer carries the
    identifier that was asked for, the identifiers stay as they were, in
    order. *)
Theorem update_success_keeps_shape (id : jstring) (updatedBug : bug)
  (p : provider) :
  List.length (bugs (now (updateBug_resolved id updatedBug p)))
  = List.length (bugs (now p))
  /\ (count_id id (bugs (now p)) = 0%nat ->
       bugs (now (updateBug_resolved id updatedBug p)) = bugs (now p))
  /\ (_id updatedBug = id ->
       ids (bugs (now (updateBug_resolved id updatedBug p)))
       = ids (bugs (now p))).
Proof.
  cbn [updateBug_resolved setBugs setLoading now bugs].
  repeat apply conj.
  - apply length_map.
  - apply count_id_zero_map.
  - intros <-. apply update_keeps_ids.
Qed.

Lemma update_success_keeps_shape_witness :
  bugs (now (updateBug_resolved (_id critical_bug) critical_bug idle))
  = bugs (now idle)
  /\ ids (bugs (now (updateBug_resolved (_id low_bug) low_bug idle)))
     = ids (bugs (now idle)).
Proof.
  split.
  - apply (proj1 (proj2 (update_success_keeps_shape
                           (_id critical_bug) critical_bug idle))).
    reflexivity.
  - apply (proj2 (proj2 (update_success_keeps_shape
                           (_id low_bug) low_bug idle))).
    reflexivity.
Defined.

Lemma count_id_filter_out (id other : jstring) (l : list bug) :
  count_id other (filter (fun bug => negb (jstr_eqb (_id bug) id)) l)
  = if jstr_eqb other id then 0%nat else count_id other l.
Proof.
  unfold count_id. induction l as [|b l IH]; simpl.
  - destruct (jstr_eqb other id); reflexivity.
  - destruct (jstr_eqbP (_id b) id) as [Hb|Hb]; simpl.
    + rewrite IH. destruct (jstr_eqbP other id) as [->|Ho]; [reflexivity|].
      destruct (jstr_eqbP (_id b) other); [congruence|reflexivity].
    + destruct (jstr_eqbP (_id b) other) as [<-|Hbo]; simpl; rewrite IH.
      * destruct (jstr_eqbP (_id b) id); [contradiction|reflexivity].
      * reflexivity.
Qed.

Lemma filter_out_length (id : jstring) (l : list bug) :
  (List.length (filter (fun bug => negb (jstr_eqb (_id bug) id)) l)
   + count_id id l = List.length l)%nat.
Proof.
  unfold count_id. induction l as [|b l IH]; simpl; [reflexivity|].
  destruct (jstr_eqb (_id b) id); simpl; lia.
Qed.

(** When a delete succeeds no record with the identifier is left, the
    records with other identifiers are untouched, the collection shrinks
    by the number of records removed, a miss changes nothing, and a
    second success for the same identifier changes nothing more. *)
Theorem delete_success_removes_id (id : jstring) (p : provider) :
  count_id id (bugs (now (deleteBug_resolved id p))) = 0%nat
  /\ (forall other, other <> id ->
         count_id other (bugs (now (deleteBug_resolved id p)))
         = count_id other (bugs (now p)))
  /\ (List.length (bugs (now (deleteBug_resolved id p)))
      + count_id id (bugs (now p)) = List.length (bugs (now p)))%nat
  /\ (count_id id (bugs (now p)) = 0%nat ->
       bugs (now (deleteBug_resolved id p)) = bugs (now p))
  /\ bugs (now (deleteBug_resolved id (deleteBug_resolved id p)))
     = bugs (now (deleteBug_resolved id p)).
Proof.
  cbn [deleteBug_resolved setBugs setLoading now bugs].
  repeat apply conj.
  - rewrite count_id_filter_out, jstr_eqb_refl. reflexivity.
  - intros other Ho. rewrite count_id_filter_out.
    destruct (jstr_eqbP other id); [contradiction|reflexivity].
  - apply filter_out_length.
  - apply count_id_zero_filter_out.
  - apply count_id_zero_filter_out.
    rewrite count_id_filter_out, jstr_eqb_refl. reflexivity.
Qed.

Lemma delete_success_removes_id_witness :
  count_id (_id critical_bug)
    (bugs (now (deleteBug_resolved (_id low_bug) idle)))
  = count_id (_id critical_bug) (bugs (now idle))
  /\ bugs (now (deleteBug_resolved (_id critical_bug) idle))
     = bugs (now idle).
Proof.
  pose proof (delete_success_removes_id (_id low_bug) idle)
    as (_ & Hother & _).
  pose proof (delete_success_removes_id (_id critical_bug) idle)
    as (_ & _ & _ & Hmiss & _).
  split.
  - apply Hother. vm_compute. discriminate.
  - apply Hmiss. reflexivity.
Defined.

(** Creating a record whose identifier is new and then deleting it gives
    back the collection there was. *)
Theorem create_then_delete_restores (newBug : bug) (p : provider) :
  count_id (_id newBug) (bugs (now p)) = 0%nat ->
  bugs (now (deleteBug_resolved (_id newBug) (createBug_resolved newBug p)))
  = bugs (now p).
Proof.
  intros Hnew.
  cbn [deleteBug_resolved createBug_resolved setBugs setLoading now bugs].
  apply find_none_count in Hnew as Hfind. rewrite Hfind.
  cbn [filter]. rewrite jstr_eqb_refl. cbn [negb].
  apply count_id_zero_filter_out, Hnew.
Qed.

Lemma create_then_delete_restores_witness :
  bugs (now (deleteBug_resolved (_id critical_bug)
               (createBug_resolved critical_bug idle)))
  = bugs (now idle).
Proof.
  apply (@create_then_delete_restores critical_bug idle). reflexivity.
Defined.

Lemma render_keeps_bugs (p : provider) : bugs (now (render p)) = bugs (now p).
Proof.
  unfold render. cbn [now memo filters].
  destruct (memo p) as [r|]; [|reflexivity].
  destruct (Nat.eqb r (ref (filters (now p)))); reflexivity.
Qed.

Lemma render_sees_cells (p : provider) : seen (render p) = now p.
Proof.
  unfold render. cbn [now memo filters].
  destruct (memo p) as [r|]; [|reflexivity].
  destruct (Nat.eqb r (ref (filters (now p)))); reflexivity.
Qed.

Lemma not_found_not_in (id : jstring) (l : list bug) :
  List.find (fun b => jstr_eqb (_id b) id) l = None -> ~ In id (ids l).
Proof.
  unfold ids. induction l as [|b l IH]; simpl; [tauto|].
  destruct (jstr_eqbP (_id b) id) as [E|E]; [discriminate|].
  intros H [Hb|Hin]; [contradiction|]. now apply IH.
Qed.

Lemma ids_filter_unique (keep : bug -> bool) (l : list bug) :
  NoDup (ids l) -> NoDup (ids (filter keep l)).
Proof.
  unfold ids. induction l as [|b l IH]; simpl; intros H; [constructor|].
  inversion H as [|x xs Hnotin Hrest]; subst.
  destruct (keep b); simpl; [|auto].
  constructor; [|auto].
  intros Hin. apply Hnotin.
  apply in_map_iff in Hin as (c & Hc & Hin).
  apply filter_In in Hin as [Hin _].
  apply in_map_iff. eauto.
Qed.

Lemma step_keeps_ids_unique (p : provider) (e : event) :
  faithful e -> NoDup (ids (bugs (now p))) ->
  NoDup (ids (bugs (now (step p e)))).
Proof.
  intros He Hp. destruct e; cbn [step]; try exact Hp.
  - now rewrite render_keeps_bugs.
  - exact He.
  - unfold createBug. destruct (loading (seen p)); exact Hp.
  - cbn [createBug_resolved setBugs setLoading now bugs].
    destruct (List.find _ (bugs (now p))) eqn:Efind; [exact Hp|].
    cbn [ids List.map]. constructor; [|exact Hp].
    apply not_found_not_in, Efind.
  - cbn in He. subst id.
    cbn [updateBug_resolved setBugs setLoading now bugs].
    now rewrite update_keeps_ids.
  - cbn [deleteBug_resolved setBugs setLoading now bugs].
    now apply ids_filter_unique.
Qed.

(** While loads bring no identifier twice and updates answer with the
    record asked for, the local collection never holds two records with
    the same identifier, whatever the order of calls, renders and
    answers. *)
Theorem ids_stay_unique (trace : list event) (p : provider) :
  NoDup (ids (bugs (now p))) ->
  Forall faithful trace ->
  NoDup (ids (bugs (now (run p trace)))).
Proof.
  revert p. induction trace as [|e trace IH]; intros p Hp Hall;
    cbn [run fold_left]; [exact Hp|].
  inversion Hall as [|x xs He Hrest]; subst.
  apply IH; [|exact Hrest].
  now apply step_keeps_ids_unique.
Qed.

Lemma ids_stay_unique_witness :
  NoDup (ids (bugs (now (run initial
                           [ Render; LoadResolved [low_bug];
                             Create login_report; CreateResolved low_bug;
                             CreateResolved critical_bug;
                             CreateResolved critical_bug ])))).
Proof.
  apply (@ids_stay_unique _ initial).
  - constructor.
  - repeat constructor. intros H. exact H.
Defined.

(** After a rejected load, create, update or delete the collection and
    the requests sent are as they were, [loading] is off, and the error
    cell holds a text that is never empty: the message of the error, or
    the fallback of that call when the message is empty. *)
Theorem rejection_leaves_bugs_and_sets_error (err : exn) (p : provider) :
  rejected_with p (loadBugs_rejected err p) err (lit "Failed to load bugs")
  /\ rejected_with p (createBug_rejected err p) err
       (lit "Failed to create bug")
  /\ rejected_with p (updateBug_rejected err p) err
       (lit "Failed to update bug")
  /\ rejected_with p (deleteBug_rejected err p) err
       (lit "Failed to delete bug").
Proof.
  unfold rejected_with.
  repeat apply conj; try reflexivity;
    cbn [loadBugs_rejected createBug_rejected updateBug_rejected
         deleteBug_rejected setError setLoading now error];
    unfold message_or;
    destruct (jstr_eqbP (emessage err) []) as [E|E];
    first [ vm_compute; discriminate | congruence ].
Qed.

(** The guard of [createBug] is the [loading] cell, which every call
    shares.  After a render [createBug] is refused exactly when the cell
    was on at that render.  So once [createBug] has started and the
    provider has rendered, a further [createBug] is refused and sends
    nothing; and after the completion of any call, that one or another
    one's, and a render, [createBug] is accepted. *)
Theorem create_guard_follows_loading (bugData next : value)
  (p p' : provider) :
  createBug bugData p = Ok p' ->
  (forall q,
      (loading (now q) = true ->
         createBug next (render q)
         = Throw (JS.Error (lit "Request already in progress")))
      /\ (loading (now q) = false ->
           exists q', createBug next (render q) = Ok q'
                      /\ sent q' = sent (render q) ++ [AddBug next]))
  /\ createBug next (render p')
     = Throw (JS.Error (lit "Request already in progress"))
  /\ (forall e,
        completion e = true ->
        exists q, createBug next (render (step p' e)) = Ok q).
Proof.
  intros Hstart.
  assert (forall q, loading (now q) = false ->
                    exists q', createBug next (render q) = Ok q'
                               /\ sent q' = sent (render q) ++ [AddBug next])
    as Hopen.
  { intros q Hq. unfold createBug. rewrite render_sees_cells, Hq.
    eexists. split; reflexivity. }
  repeat apply conj.
  - intros q. split; [|apply Hopen].
    intros Hq. unfold createBug. now rewrite render_sees_cells, Hq.
  - unfold createBug in Hstart.
    destruct (loading (seen p)); [discriminate|]. injection Hstart as <-.
    unfold createBug. rewrite render_sees_cells. reflexivity.
  - intros e He.
    destruct (Hopen (step p' e)) as (q & Hq & _); [|exists q; exact Hq].
    destruct e; try discriminate He; reflexivity.
Qed.

Lemma create_guard_follows_loading_witness :
  createBug login_report (render (settle idle (createBug login_report idle)))
  = Throw (JS.Error (lit "Request already in progress"))
  /\ exists q,
      createBug login_report
        (render (step (settle idle (createBug login_report idle))
                      (DeleteResolved (_id low_bug))))
      = Ok q.
Proof.
  pose proof (@create_guard_follows_loading login_report login_report idle
                (settle idle (createBug login_report idle)) eq_refl)
    as (_ & Hshut & Hopen).
  split; [exact Hshut|].
  apply (Hopen (DeleteResolved (_id low_bug))). reflexivity.
Defined.

(* ===================================================================== *)
(** * dateUtils.js                                                        *)
(* ===================================================================== *)

Lemma floor_div_below (d k m : Z) :
  (0 < k)%Z -> ((d / k <? m) = (d <? k * m))%Z.
Proof.
  intros Hk.
  destruct (Z.ltb_spec d (k * m)) as [Hlt|Hge].
  - apply Z.ltb_lt. now apply Z.div_lt_upper_bound.
  - apply Z.ltb_ge. now apply Z.div_le_lower_bound.
Qed.

(** A date less than a minute in the past, or in the future, reads
    [just now]. *)
Theorem recent_or_future_is_just_now (now dateObj : Z) :
  (now - dateObj < 60000)%Z ->
  DateUtils.getRelativeTime now (DateUtils.Moment (Some dateObj))
  = Ok (Some (lit "just now")).
Proof.
  intros H. unfold DateUtils.getRelativeTime.
  rewrite floor_div_below by lia.
  destruct (Z.ltb_spec (now - dateObj) (1000 * 60)); [reflexivity|lia].
Qed.

Lemma recent_or_future_is_just_now_witness :
  DateUtils.getRelativeTime 1700000000000%Z
    (DateUtils.Moment (Some 1700000300000%Z))
  = Ok (Some (lit "just now")).
Proof.
  apply (@recent_or_future_is_just_now 1700000000000%Z 1700000300000%Z).
  lia.
Defined.

(** [getRelativeTime] by elapsed whole seconds [d]: minutes up to an
    hour, hours up to a day, days up to 30 days, months of 30 days up to
    360 days, then years of 360 days; the number shown is the whole
    number of units elapsed, at least 1 and below the size of the next
    unit. *)
Theorem relative_time_by_elapsed_seconds (now dateObj : Z) :
  let d := elapsed now dateObj in
  DateUtils.getRelativeTime now (DateUtils.Moment (Some dateObj))
  = Ok (Some
          (if d <? 60 then lit "just now"
           else if d <? 3600 then DateUtils.ago (d / 60) "minute"
           else if d <? 86400 then DateUtils.ago (d / 3600) "hour"
           else if d <? 2592000 then DateUtils.ago (d / 86400) "day"
           else if d <? 31104000 then DateUtils.ago (d / 2592000) "month"
           else DateUtils.ago (d / 31104000) "year"))%Z
  /\ (60 <= d < 3600 -> 1 <= d / 60 <= 59)%Z
  /\ (3600 <= d < 86400 -> 1 <= d / 3600 <= 23)%Z
  /\ (86400 <= d < 2592000 -> 1 <= d / 86400 <= 29)%Z
  /\ (2592000 <= d < 31104000 -> 1 <= d / 2592000 <= 11)%Z
  /\ (31104000 <= d -> 1 <= d / 31104000)%Z.
Proof.
  intros d. split.
  - unfold DateUtils.getRelativeTime. fold (elapsed now dateObj). fold d.
    rewrite !Z.div_div by lia.
    rewrite !floor_div_below by lia.
    change (60 * 60)%Z with 3600%Z. change (3600 * 24)%Z with 86400%Z.
    change (86400 * 30)%Z with 2592000%Z.
    change (2592000 * 12)%Z with 31104000%Z.
    destruct (d <? 60)%Z; [reflexivity|].
    destruct (d <? 3600)%Z; [reflexivity|].
    destruct (d <? 86400)%Z; [reflexivity|].
    destruct (d <? 2592000)%Z; [reflexivity|].
    destruct (d <? 31104000)%Z; reflexivity.
  - repeat apply conj;
      first [ intros [Hlo Hhi]; split;
              [ apply Z.div_le_lower_bound; lia
              | apply Z.lt_succ_r; apply Z.div_lt_upper_bound; lia ]
            | intros Hlo; apply Z.div_le_lower_bound; lia ].
Qed.

Lemma relative_time_by_elapsed_seconds_witness :
  (1 <= elapsed 1700000000000 1699999700000 / 60 <= 59)%Z.
Proof.
  apply (proj1 (proj2 (relative_time_by_elapsed_seconds
                         1700000000000%Z 1699999700000%Z))).
  vm_compute. split; [discriminate|reflexivity].
Defined.

(* ===================================================================== *)
(** * notFound.js and errorHandler.js                                     *)
(* ===================================================================== *)

(** An unmatched route: the error [notFound] hands on makes
    [errorHandler] answer 404 with the text [Not Found - ] followed by the
    requested URL, in every environment, and log it once. *)
Theorem unmatched_route_is_404 (NODE_ENV : option jstring) (trace : jstring)
  (req : Middleware.request) :
  let answer :=
    Middleware.errorHandler NODE_ENV (Middleware.notFound trace req) req in
  Middleware.status answer = 404%Z
  /\ (exists rest,
        Middleware.body answer
        = VObj ((lit "success", VBool false)
                :: (lit "error",
                    VStr (lit "Not Found - " ++ Middleware.originalUrl req))
                :: rest))
  /\ Middleware.logged answer
     = [Middleware.logApplicationError (Middleware.notFound trace req) req].
Proof.
  cbv zeta. unfold Middleware.errorHandler.
  repeat apply conj; try reflexivity.
  eexists. reflexivity.
Qed.

(** Outside the development environment the body [errorHandler] sends
    for an error that is not named [ValidationError] has two members
    only, [success: false] and a non-empty [error] text: no stack and no
    details. *)
Theorem error_body_outside_development (NODE_ENV : option jstring)
  (err : Middleware.failure) (req : Middleware.request) :
  NODE_ENV <> Some (lit "development") ->
  Middleware.named err "ValidationError" = false ->
  exists text,
    Middleware.body (Middleware.errorHandler NODE_ENV err req)
    = VObj [ (lit "success", VBool false); (lit "error", VStr text) ]
    /\ text <> [].
Proof.
  intros Henv _. unfold Middleware.errorHandler. cbn [Middleware.body].
  assert (match NODE_ENV with
          | Some env => jstr_eqb env (lit "development")
          | None => false
          end = false) as ->.
  { destruct NODE_ENV as [env|]; [|reflexivity].
    destruct (jstr_eqbP env (lit "development")); congruence. }
  eexists. split; [reflexivity|].
  match goal with
  | |- (if jstr_eqb ?m [] then _ else _) <> [] =>
      destruct (jstr_eqbP m []) as [E|E]; [discriminate|exact E]
  end.
Qed.

Lemma error_body_outside_development_witness :
  exists text,
    Middleware.body
      (Middleware.errorHandler (Some (lit "production"))
         (Middleware.mkFailure (JS.Error (lit "boom")) VUndefined None
            (lit "Error: boom at handler"))
         (Middleware.mkRequest (lit "GET") (lit "/api/bugs")))
    = VObj [ (lit "success", VBool false); (lit "error", VStr text) ]
    /\ text <> [].
Proof.
  apply (@error_body_outside_development (Some (lit "production"))).
  - vm_compute. discriminate.
  - reflexivity.
Defined.

(** An error named [MongoServerError] or [MongoError] is answered with
    500 and [Database operation failed], whatever its message, its code
    (11000 included) and its own status code, and is logged twice: as an
    application error, then as a database error. *)
Theorem database_error_is_500 (NODE_ENV : option jstring)
  (err : Middleware.failure) (req : Middleware.request) :
  Middleware.named err "MongoServerError" = true
  \/ Middleware.named err "MongoError" = true ->
  let answer := Middleware.errorHandler NODE_ENV err req in
  Middleware.status answer = 500%Z
  /\ (exists rest,
        Middleware.body answer
        = VObj ((lit "success", VBool false)
                :: (lit "error", VStr (lit "Database operation failed"))
                :: rest))
  /\ Middleware.logged answer
     = [ Middleware.logApplicationError err req;
         Middleware.logDatabaseError err (lit "database_operation") ].
Proof.
  intros Hname. cbv zeta. unfold Middleware.errorHandler.
  assert (Middleware.named err "MongoServerError"
          || Middleware.named err "MongoError" = true) as Hdb
      by (apply orb_true_iff; exact Hname).
  assert (Middleware.named err "JsonWebTokenError" = false
          /\ Middleware.named err "TokenExpiredError" = false) as [Hj Ht].
  { unfold Middleware.named in *.
    destruct Hname as [H|H];
      destruct (jstr_eqbP (ename (Middleware.cause err))
                  (lit "MongoServerError")) as [E|E];
      destruct (jstr_eqbP (ename (Middleware.cause err))
                  (lit "MongoError")) as [E'|E'];
      try discriminate; try rewrite E; try rewrite E'; split; reflexivity. }
  rewrite Hdb, Hj, Ht.
  cbn [Middleware.replace_when Middleware.status Middleware.body
       Middleware.logged fst snd].
  repeat apply conj; try reflexivity.
  eexists. reflexivity.
Qed.

Lemma database_error_is_500_witness :
  Middleware.status
    (Middleware.errorHandler None
       (Middleware.mkFailure
          (mkExn (lit "MongoServerError")
                 (lit "E11000 duplicate key error collection: bugs") [])
          (VNum (Int 11000)) None (lit ""))
       (Middleware.mkRequest (lit "POST") (lit "/api/bugs")))
  = 500%Z.
Proof.
  apply (@database_error_is_500 None
           (Middleware.mkFailure
              (mkExn (lit "MongoServerError")
                     (lit "E11000 duplicate key error collection: bugs") [])
              (VNum (Int 11000)) None (lit ""))
           (Middleware.mkRequest (lit "POST") (lit "/api/bugs"))).
  left. reflexivity.
Defined.

(** An error no rule matches keeps its own status code, 500 when it has
    none or has 0, and its own message, [Server Error] when that is
    empty. *)
Theorem unruled_error_passes_through (NODE_ENV : option jstring)
  (err : Middleware.failure) (req : Middleware.request) :
  ruled err = false ->
  let answer := Middleware.errorHandler NODE_ENV err req in
  Middleware.status answer
  = match Middleware.statusCode err with
    | Some c => if (c =? 0)%Z then 500%Z else c
    | None => 500%Z
    end
  /\ (exists rest,
        Middleware.body answer
        = VObj ((lit "success", VBool false)
                :: (lit "error",
                    VStr (if jstr_eqb (emessage (Middleware.cause err)) []
                          then lit "Server Error"
                          else emessage (Middleware.cause err)))
                :: rest))
  /\ Middleware.logged answer = [Middleware.logApplicationError err req].
Proof.
  unfold ruled, ruled_names. cbn [existsb]. intros H.
  apply orb_false_iff in H as [H Hdup].
  repeat (apply orb_false_iff in H as [?H H]).
  cbv zeta. unfold Middleware.errorHandler.
  rewrite H0, H1, H2, H3, H4, H5, Hdup.
  cbn [Middleware.replace_when Middleware.status Middleware.body
       Middleware.logged fst snd orb].
  repeat apply conj; try reflexivity.
  eexists. reflexivity.
Qed.

Lemma unruled_error_passes_through_witness :
  Middleware.status
    (Middleware.errorHandler None
       (Middleware.mkFailure (JS.Error (lit "boom")) VUndefined (Some 0%Z)
          (lit ""))
       (Middleware.mkRequest (lit "GET") (lit "/api/bugs")))
  = 500%Z.
Proof.
  apply (@unruled_error_passes_through None
           (Middleware.mkFailure (JS.Error (lit "boom")) VUndefined
              (Some 0%Z) (lit ""))
           (Middleware.mkRequest (lit "GET") (lit "/api/bugs"))).
  reflexivity.
Defined.

(** A [CastError] ends as a 404 whether a handler catches it or the
    error middleware does: [getBug], [updateBug] and [deleteBug] answer
    [Bug not found], and [errorHandler] answers [Resource not found]
    unless the error also carries the code 11000. *)
Theorem cast_error_is_404_everywhere (NODE_ENV : option jstring)
  (err : Middleware.failure) (req : Middleware.request)
  (Bug : Model) (id : jstring) (body : value)
  (S : Type) (D : BugHandlers.Deleting S) (s : S) :
  Middleware.named err "CastError" = true ->
  Middleware.duplicate_key err = false ->
  (Middleware.status (Middleware.errorHandler NODE_ENV err req) = 404%Z
   /\ exists rest,
       Middleware.body (Middleware.errorHandler NODE_ENV err req)
       = VObj ((lit "success", VBool false)
               :: (lit "error", VStr (lit "Resource not found")) :: rest))
  /\ (findById Bug id = Throw (Middleware.cause err) ->
       getBug Bug id = not_found)
  /\ (findByIdAndUpdate Bug id body = Throw (Middleware.cause err) ->
       BugController.updateBug Bug id body = not_found)
  /\ (findById (BugHandlers.documents D s) id
      = Throw (Middleware.cause err) ->
      BugHandlers.deleteBug D id s = (BugHandlers.Replied not_found, s)).
Proof.
  intros Hcast Hdup.
  assert (ename (Middleware.cause err) = lit "CastError") as Hname
      by (unfold Middleware.named in Hcast;
          destruct (jstr_eqbP (ename (Middleware.cause err))
                      (lit "CastError")); congruence).
  repeat apply conj.
  - unfold Middleware.errorHandler, Middleware.named.
    rewrite Hname, Hdup. reflexivity.
  - unfold Middleware.errorHandler, Middleware.named.
    rewrite Hname, Hdup. eexists. reflexivity.
  - intros H. unfold getBug. rewrite H, Hname. reflexivity.
  - intros H. unfold BugController.updateBug. rewrite H, Hname. reflexivity.
  - intros H. unfold BugHandlers.deleteBug, BugHandlers.delete_failed.
    rewrite H, Hname. reflexivity.
Qed.

Lemma cast_error_is_404_everywhere_witness :
  Middleware.status
    (Middleware.errorHandler None
       (Middleware.mkFailure (Store.cast_error (lit "invalid-id-format"))
          VUndefined None (lit ""))
       (Middleware.mkRequest (lit "GET") (lit "/api/bugs/invalid-id-format")))
  = 404%Z
  /\ BugHandlers.deleteBug BugHandlers.memory (lit "invalid-id-format")
       [low_bug]
     = (BugHandlers.Replied not_found, [low_bug]).
Proof.
  pose proof (@cast_error_is_404_everywhere None
                (Middleware.mkFailure
                   (Store.cast_error (lit "invalid-id-format"))
                   VUndefined None (lit ""))
                (Middleware.mkRequest (lit "GET")
                   (lit "/api/bugs/invalid-id-format"))
                (Store.collection [low_bug]) (lit "invalid-id-format")
                VUndefined _ BugHandlers.memory [low_bug]
                eq_refl eq_refl)
    as ((Hstatus & _) & _ & _ & Hdel).
  split; [exact Hstatus|apply Hdel; reflexivity].
Defined.

(* ===================================================================== *)
(** * bugController.js: all five handlers                                 *)
(* ===================================================================== *)

(** Every reply a handler sends itself is one of two envelopes: success
    with data under 200 or 201, or failure with an error text under 400
    or 404; and an error a handler forwards to [next] is one it has no
    rule for. *)
Theorem handlers_send_envelopes (Bug : Model) (create : value -> result bug)
  (status priority sort body : value) (id : jstring) :
  envelope (getBugs Bug status priority sort)
  /\ envelope (getBug Bug id)
  /\ envelope (BugHandlers.createBug create body)
  /\ envelope (BugController.updateBug Bug id body)
  /\ (forall e, getBug Bug id = Next e -> ename e <> lit "CastError")
  /\ (forall e, BugHandlers.createBug create body = Next e ->
                ename e <> lit "ValidationError")
  /\ (forall e, BugController.updateBug Bug id body = Next e -> handled e = false).
Proof.
  assert (forall text : jstring, Some text <> None) as Hsome
      by (intros text; discriminate).
  repeat apply conj.
  - unfold getBugs. destruct (find_sort Bug _ _); cbn [envelope]; [|exact I].
    left. repeat split; solve [auto | discriminate].
  - unfold getBug. destruct (findById Bug id) as [[b|]|e]; cbn [envelope].
    + left. repeat split; solve [auto | discriminate].
    + right. repeat split; solve [auto | discriminate].
    + destruct (jstr_eqb (ename e) (lit "CastError")); cbn [envelope];
        [|exact I].
      right. repeat split; solve [auto | discriminate].
  - unfold BugHandlers.createBug. destruct (create body) as [b|e];
      cbn [envelope].
    + left. repeat split; solve [auto | discriminate].
    + destruct (jstr_eqb (ename e) (lit "ValidationError")); cbn [envelope];
        [|exact I].
      right. repeat split; solve [auto | discriminate].
  - unfold BugController.updateBug.
    destruct (findByIdAndUpdate Bug id body) as [[b|]|e]; cbn [envelope].
    + left. repeat split; solve [auto | discriminate].
    + right. repeat split; solve [auto | discriminate].
    + destruct (jstr_eqb (ename e) (lit "ValidationError")); cbn [envelope].
      { right. repeat split; solve [auto | discriminate]. }
      destruct (jstr_eqb (ename e) (lit "CastError")); cbn [envelope];
        [|exact I].
      right. repeat split; solve [auto | discriminate].
  - intros e. unfold getBug.
    destruct (findById Bug id) as [[b|]|e']; try discriminate.
    destruct (jstr_eqbP (ename e') (lit "CastError")); [discriminate|].
    intros H. injection H as <-. assumption.
  - intros e. unfold BugHandlers.createBug.
    destruct (create body) as [b|e']; try discriminate.
    destruct (jstr_eqbP (ename e') (lit "ValidationError"));
      [discriminate|].
    intros H. injection H as <-. assumption.
  - intros e. unfold BugController.updateBug, handled.
    destruct (findByIdAndUpdate Bug id body) as [[b|]|e']; try discriminate.
    destruct (jstr_eqb (ename e') (lit "ValidationError")) eqn:Ev;
      [discriminate|].
    destruct (jstr_eqb (ename e') (lit "CastError")) eqn:Ec;
      [discriminate|].
    intros H. injection H as <-. now rewrite Ev, Ec.
Qed.

Lemma handlers_send_envelopes_witness :
  ename (JS.Error (lit "connection lost")) <> lit "CastError".
Proof.
  pose proof (handlers_send_envelopes
                (mkModel (fun _ _ => Ok [])
                         (fun _ => Throw (JS.Error (lit "connection lost")))
                         (fun _ _ => Ok None))
                (fun _ => Ok low_bug) VUndefined VUndefined VUndefined
                VUndefined (_id low_bug))
    as (_ & _ & _ & _ & Hforward & _).
  apply Hforward. reflexivity.
Defined.

(** ** [deleteBug] on the collection in memory *)

Lemma find_by_id_some (id : jstring) (b : bug) (l : list bug) :
  List.find (fun d => jstr_eqb (_id d) id) l = Some b -> _id b = id.
Proof.
  intros H. apply find_some in H as [_ H].
  destruct (jstr_eqbP (_id b) id); congruence.
Qed.

(** On the collection in memory, [deleteBug] of a well-formed identifier
    that some document carries removes every document with the
    identifier and leaves the others, after which reading and deleting
    that identifier both answer 404; [deleteBug] of any other identifier,
    malformed or carried by no document, answers 404 and leaves the
    collection as it was. *)
Theorem delete_is_permanent (id : jstring) (docs : list bug) :
  let after := snd (BugHandlers.deleteBug BugHandlers.memory id docs) in
  (Store.castable id = true -> count_id id docs <> 0%nat ->
     fst (BugHandlers.deleteBug BugHandlers.memory id docs)
     = BugHandlers.Deleted
     /\ count_id id after = 0%nat
     /\ (forall other, other <> id ->
            count_id other after = count_id other docs)
     /\ getBug (Store.collection after) id = not_found
     /\ BugHandlers.deleteBug BugHandlers.memory id after
        = (BugHandlers.Replied not_found, after))
  /\ (Store.castable id = false \/ count_id id docs = 0%nat ->
       BugHandlers.deleteBug BugHandlers.memory id docs
       = (BugHandlers.Replied not_found, docs)).
Proof.
  cbv zeta. unfold BugHandlers.deleteBug.
  cbn [BugHandlers.memory BugHandlers.documents BugHandlers.deleteOne
       Store.collection findById].
  split.
  - intros Ecast Hcount. rewrite Ecast.
    destruct (List.find (fun b => jstr_eqb (_id b) id) docs) as [b|] eqn:Efind;
      [|apply find_none_count in Efind; contradiction].
    cbn [fst snd].
    pose proof (find_by_id_some _ _ Efind) as Hid. rewrite Hid.
    assert (count_id id
              (filter (fun d => negb (jstr_eqb (_id d) id)) docs) = 0%nat)
      as Hgone by (rewrite count_id_filter_out, jstr_eqb_refl; reflexivity).
    assert (List.find (fun b0 => jstr_eqb (_id b0) id)
              (filter (fun d => negb (jstr_eqb (_id d) id)) docs) = None)
      as Hmiss by (apply find_none_count, Hgone).
    repeat apply conj.
    + reflexivity.
    + exact Hgone.
    + intros other Ho. rewrite count_id_filter_out.
      destruct (jstr_eqbP other id); [contradiction|reflexivity].
    + unfold getBug. cbn [Store.collection findById].
      rewrite Ecast, Hmiss. reflexivity.
    + rewrite Hmiss. reflexivity.
  - intros [Ecast|Hcount].
    + rewrite Ecast. reflexivity.
    + apply find_none_count in Hcount. rewrite Hcount.
      destruct (Store.castable id); reflexivity.
Qed.

Lemma delete_is_permanent_witness :
  (fst (BugHandlers.deleteBug BugHandlers.memory (_id low_bug)
          [low_bug; critical_bug])
   = BugHandlers.Deleted
   /\ getBug
        (Store.collection
           (snd (BugHandlers.deleteBug BugHandlers.memory (_id low_bug)
                   [low_bug; critical_bug])))
        (_id low_bug)
      = not_found)
  /\ BugHandlers.deleteBug BugHandlers.memory (lit "invalid-id-format")
       [low_bug; critical_bug]
     = (BugHandlers.Replied not_found, [low_bug; critical_bug])
  /\ BugHandlers.deleteBug BugHandlers.memory (_id critical_bug) [low_bug]
     = (BugHandlers.Replied not_found, [low_bug]).
Proof.
  repeat apply conj.
  - apply (proj1 (delete_is_permanent (_id low_bug) [low_bug; critical_bug]));
      [reflexivity|vm_compute; discriminate].
  - apply (proj1 (delete_is_permanent (_id low_bug) [low_bug; critical_bug]));
      [reflexivity|vm_compute; discriminate].
  - apply (proj2 (delete_is_permanent (lit "invalid-id-format")
                    [low_bug; critical_bug])).
    left. reflexivity.
  - apply (proj2 (delete_is_permanent (_id critical_bug) [low_bug])).
    right. reflexivity.
Defined.

(* ===================================================================== *)
(** * bugService.js                                                       *)
(* ===================================================================== *)





Lemma refusal_is_thrown (document : bug -> list (jstring * value))
  (prefix : string) (statusText text : jstring) :
  text <> [] -> text <> lit "Failed to fetch" ->
  BugService.caught
    (BugService.refuse prefix statusText
       (Ok (body_json document (mkBody false None None (Some text)))))
  = Throw (JS.Error text).
Proof.
  intros Hne Hff. unfold body_json, BugService.refuse.
  cbn [app BugController.count BugController.data BugController.error
       BugController.success bind BugService.member_of].
  assert (property [(lit "success", VBool false); (lit "error", VStr text)]
            (lit "error") = VStr text) as -> by reflexivity.
  unfold js_or. cbn [to_boolean].
  destruct (jstr_eqbP text []) as [E|_]; [contradiction|].
  cbn [negb to_string bind BugService.caught]. unfold BugService.rethrow.
  cbn [emessage ename JS.Error].
  destruct (jstr_eqbP text (lit "Failed to fetch")) as [E|_];
    [contradiction|reflexivity].
Qed.

(** When a handler refuses with an error text, the service throws an
    [Error] carrying exactly that text, provided the text is neither
    empty nor [Failed to fetch]; an empty text is replaced by the
    function's own prefix and the status text. *)
Theorem server_text_is_thrown (document : bug -> list (jstring * value))
  (statusText text : jstring) (code : Z) :
  BugService.ok code = false ->
  let refusal :=
    over_http document statusText code (mkBody false None None (Some text)) in
  (text <> [] -> text <> lit "Failed to fetch" ->
     BugService.createBug refusal = Throw (JS.Error text)
     /\ BugService.updateBug refusal = Throw (JS.Error text)
     /\ BugService.deleteBug refusal = Throw (JS.Error text))
  /\ (text = [] ->
       BugService.createBug refusal
       = Throw (JS.Error (lit "Failed to create bug: " ++ statusText))).
Proof.
  intros Hcode. cbv zeta.
  unfold over_http, BugService.createBug, BugService.updateBug,
    BugService.deleteBug.
  rewrite Hcode. cbn [negb].
  split.
  - intros Hne Hff. rewrite !refusal_is_thrown by assumption.
    repeat split; reflexivity.
  - intros ->. reflexivity.
Qed.

Lemma server_text_is_thrown_witness :
  BugService.updateBug
    (over_http (fun _ => []) (lit "Not Found") 404
       (mkBody false None None (Some (lit "Bug not found"))))
  = Throw (JS.Error (lit "Bug not found")).
Proof.
  pose proof (@server_text_is_thrown (fun _ => []) (lit "Not Found")
                (lit "Bug not found") 404 eq_refl) as [H _].
  apply H; vm_compute; discriminate.
Defined.

(** From the store to the screen: when the update handler refuses (404
    or 400), the service throws the handler's text and the context, once
    the call is rejected with that error, shows the same text in its
    error cell, with the collection unchanged; the text must be neither
    empty nor [Failed to fetch]. *)
Theorem refused_update_reaches_error_cell
  (document : bug -> list (jstring * value)) (statusText : jstring)
  (Bug : Model) (id : jstring) (body : value) (p : provider)
  (code : Z) (b : BugController.body) (text : jstring) :
  BugController.updateBug Bug id body = Json code b ->
  BugController.error b = Some text ->
  text <> [] -> text <> lit "Failed to fetch" ->
  exists e,
    BugService.updateBug (over_http document statusText code b) = Throw e
    /\ error (now (updateBug_rejected e p)) = Some text
    /\ bugs (now (updateBug_rejected e p)) = bugs (now p).
Proof.
  intros Hreply Herr Hne Hff.
  assert (BugService.ok code = false
          /\ b = mkBody false None None (Some text)) as [Hcode ->].
  { unfold BugController.updateBug in Hreply.
    destruct (findByIdAndUpdate Bug id body) as [[found|]|e].
    - injection Hreply as <- <-. discriminate Herr.
    - injection Hreply as <- <-. injection Herr as <-.
      split; reflexivity.
    - destruct (jstr_eqb (ename e) (lit "ValidationError")).
      + injection Hreply as <- <-. cbn in Herr. injection Herr as <-.
        split; reflexivity.
      + destruct (jstr_eqb (ename e) (lit "CastError"));
          [|discriminate Hreply].
        injection Hreply as <- <-. injection Herr as <-.
        split; reflexivity. }
  exists (JS.Error text). split; [|split; [|reflexivity]].
  { unfold BugService.updateBug, over_http. rewrite Hcode. cbn [negb].
    now apply refusal_is_thrown. }
  cbn [updateBug_rejected setError setLoading now error].
  unfold message_or. cbn [emessage JS.Error].
  destruct (jstr_eqbP text []); [contradiction|reflexivity].
Qed.

Lemma refused_update_reaches_error_cell_witness :
  exists e,
    BugService.updateBug
      (over_http (fun _ => []) (lit "Not Found") 404
         (mkBody false None None (Some (lit "Bug not found"))))
    = Throw e
    /\ error (now (updateBug_rejected e idle)) = Some (lit "Bug not found")
    /\ bugs (now (updateBug_rejected e idle)) = bugs (now idle).
Proof.
  apply (@refused_update_reaches_error_cell (fun _ => []) (lit "Not Found")
           (Store.collection [low_bug]) (lit "invalid-id-format")
           VUndefined idle 404
           (mkBody false None None (Some (lit "Bug not found")))
           (lit "Bug not found")).
  - reflexivity.
  - reflexivity.
  - vm_compute. discriminate.
  - vm_compute. discriminate.
Defined.

(** What the service returns from a successful reply is its [data]
    member: the document, or the documents in the order the handler
    listed them. *)
Theorem success_data_is_returned (document : bug -> list (jstring * value))
  (API_BASE_URL statusText : jstring) (isHealthy : bool) (code : Z)
  (b : BugController.body) (p : payload) :
  BugService.ok code = true ->
  BugController.data b = Some p ->
  let reply := over_http document statusText code b in
  BugService.createBug reply = Ok (payload_json document p)
  /\ BugService.updateBug reply = Ok (payload_json document p)
  /\ BugService.getBug reply = Ok (payload_json document p)
  /\ BugService.getBugs API_BASE_URL isHealthy reply
     = Ok (payload_json document p).
Proof.
  intros Hcode Hdata. cbv zeta.
  assert (BugService.unwrap (Ok (body_json document b))
          = Ok (payload_json document p)) as Hunwrap.
  { destruct b as [flag [n|] payload [text|]]; cbn in Hdata; subst payload;
      destruct p; reflexivity. }
  unfold BugService.createBug, BugService.updateBug, BugService.getBug,
    BugService.getBugs, over_http.
  rewrite Hcode, Hunwrap. repeat split; reflexivity.
Qed.

Lemma success_data_is_returned_witness :
  BugService.getBugs (lit "http://localhost:5000/api") true
    (over_http (fun b => [(lit "_id", VStr (_id b))]) (lit "OK") 200
       (mkBody true (Some 1%Z) (Some (Bugs [low_bug])) None))
  = Ok (VArr [VObj [(lit "_id", VStr (_id low_bug))]]).
Proof.
  apply (@success_data_is_returned
           (fun b => [(lit "_id", VStr (_id b))])
           (lit "http://localhost:5000/api") (lit "OK") true 200
           (mkBody true (Some 1%Z) (Some (Bugs [low_bug])) None)
           (Bugs [low_bug])); reflexivity.
Defined.

(** The filters the context hands to [getBugs] of the service are the
    filters [getBugs] of the controller queries the store with: a status
    and a priority are passed on when they are set and not empty, and the
    sort selects [createdAt], [-priority] or, for anything else,
    [-createdAt]. *)
Theorem filters_reach_store_query (Bug : Model) (f : filterSel) :
  let params := BugService.query_params f in
  getBugs Bug (req_query params "status") (req_query params "priority")
              (req_query params "sort")
  = match find_sort Bug (store_query f) (store_sort f) with
    | Ok found =>
        Json 200 (mkBody true (Some (Z.of_nat (List.length found)))
                         (Some (Bugs found)) None)
    | Throw e => Next e
    end.
Proof.
  destruct f as [r [[|c s]|] [[|c' q]|] [[|c'' o]|]]; reflexivity.
Qed.

(* ===================================================================== *)
(** * BugItem.jsx, BugForm.jsx and BugList.jsx                            *)
(* ===================================================================== *)

(** The badge classes of [BugItem] follow the enumerations of
    [bugUtils.js]: a value [validStatuses] includes gets [status-]
    followed by itself, a value [isValidPriority] accepts gets
    [priority-] followed by itself, and every other value gets the empty
    class. *)
Theorem badge_class_matches_enumerations (v : value) :
  Components.getStatusClass v
  = (if includes validStatuses v then lit "status-" ++ as_string v
     else lit "")
  /\ Components.getPriorityClass v
     = (if isValidPriority v then lit "priority-" ++ as_string v
        else lit "").
Proof.
  unfold isValidPriority.
  rewrite includes_validStatuses_name, includes_validPriorities_name.
  destruct v as [| |b|n|s|elems|props|name]; try (split; reflexivity).
  unfold Components.getStatusClass, Components.getPriorityClass,
    status_name, priority_name, s_open, s_in_progress, s_resolved,
    s_low, s_medium, s_high, s_critical.
  cbn [strict_equals as_string].
  split.
  - destruct (jstr_eqbP s (lit "open")) as [->|_]; [reflexivity|].
    destruct (jstr_eqbP s (lit "in-progress")) as [->|_]; [reflexivity|].
    destruct (jstr_eqbP s (lit "resolved")) as [->|_]; reflexivity.
  - destruct (jstr_eqbP s (lit "low")) as [->|_]; [reflexivity|].
    destruct (jstr_eqbP s (lit "medium")) as [->|_]; [reflexivity|].
    destruct (jstr_eqbP s (lit "high")) as [->|_]; [reflexivity|].
    destruct (jstr_eqbP s (lit "critical")) as [->|_]; reflexivity.
Qed.

Lemma missing_text_blank (s : jstring) :
  missing_text (VStr s) = Components.blank s.
Proof.
  rewrite missing_text_rule. unfold Components.blank. cbn [text_violated].
  destruct (trim s); reflexivity.
Qed.

(** The blocks of [validateBugData] on the object a form hands over whose
    status and priority are options of the selects. *)
Lemma form_object_blocks (fd : Components.formData) :
  status_name (Components.form_status fd) = true ->
  priority_name (Components.form_priority fd) = true ->
  validateBugData (Components.form_object fd)
  = let errs :=
      title_messages (VStr (Components.form_title fd))
      ++ (if Components.blank (Components.form_description fd)
          then [msg_description] else [])
      ++ (if Components.blank (Components.form_reporter fd)
          then [msg_reporter] else []) in
    Ok {| valid := (Z.of_nat (List.length errs) =? 0)%Z; errors := errs |}.
Proof.
  intros Hs Hp.
  rewrite validateBugData_blocks by discriminate.
  assert (forall f,
             read (Components.form_object fd) f
             = VStr match f with
                    | Title => Components.form_title fd
                    | Description => Components.form_description fd
                    | Reporter => Components.form_reporter fd
                    | Status => Components.form_status fd
                    | Priority => Components.form_priority fd
                    end) as Hread by (intros []; reflexivity).
  rewrite !Hread, !missing_text_blank.
  rewrite includes_validStatuses_name, includes_validPriorities_name, Hs, Hp.
  cbn [negb]. rewrite !andb_false_r, !app_nil_r. reflexivity.
Qed.

(** On a form whose status and priority are options of the selects,
    [validate()] of the form and [validateBugData] of the server agree:
    the form passes exactly when the object it would send is valid, and
    both report the same number of problems. *)
Theorem form_agrees_with_validateBugData (fd : Components.formData) :
  status_name (Components.form_status fd) = true ->
  priority_name (Components.form_priority fd) = true ->
  exists r,
    validateBugData (Components.form_object fd) = Ok r
    /\ valid r = snd (Components.validate fd)
    /\ List.length (errors r) = List.length (fst (Components.validate fd)).
Proof.
  intros Hs Hp. rewrite (form_object_blocks fd Hs Hp). cbv zeta.
  eexists. split; [reflexivity|].
  unfold Components.validate, title_messages. cbn [valid errors fst snd].
  rewrite missing_text_blank. cbn [as_string].
  destruct (Components.blank (Components.form_title fd));
    [|destruct (200 <? str_length (Components.form_title fd))%Z];
    destruct (Components.blank (Components.form_description fd));
    destruct (Components.blank (Components.form_reporter fd));
    split; reflexivity.
Qed.

Lemma form_agrees_with_validateBugData_witness :
  exists r,
    validateBugData (Components.form_object Components.empty_form) = Ok r
    /\ valid r = snd (Components.validate Components.empty_form)
    /\ List.length (errors r)
       = List.length (fst (Components.validate Components.empty_form)).
Proof.
  apply (@form_agrees_with_validateBugData Components.empty_form);
    reflexivity.
Defined.

(** A form that passes [validate()] holds a title, a description and a
    reporter that are not blank, and a title of at most 200 characters. *)
Lemma validate_passes (fd : Components.formData) :
  snd (Components.validate fd) = true ->
  Components.blank (Components.form_title fd) = false
  /\ (200 <? str_length (Components.form_title fd))%Z = false
  /\ Components.blank (Components.form_description fd) = false
  /\ Components.blank (Components.form_reporter fd) = false.
Proof.
  unfold Components.validate. cbn [snd].
  destruct (Components.blank (Components.form_title fd));
    [|destruct (200 <? str_length (Components.form_title fd))%Z];
    destruct (Components.blank (Components.form_description fd));
    destruct (Components.blank (Components.form_reporter fd));
    intros H; try discriminate H; repeat split.
Qed.

(** [handleSubmit] makes no call when [validate()] fails.  When it passes
    (status and priority being options of the selects), the body is one
    [validateBugData] accepts and whose title the schema's title path
    accepts, and [handleSubmit] makes one call: [updateBug] for the bug
    being edited, which sends one update request with that body; or
    [createBug], which sends one create request with that body, unless
    the context saw [loading] at its last render, when it throws and
    sends nothing. *)
Theorem form_submits_only_accepted_bodies (editing : option bug)
  (fd : Components.formData) (p : provider) :
  status_name (Components.form_status fd) = true ->
  priority_name (Components.form_priority fd) = true ->
  (snd (Components.validate fd) = false ->
     Components.handleSubmit editing fd p = None)
  /\ (snd (Components.validate fd) = true ->
       validateBugData (Components.form_object fd)
       = Ok {| valid := true; errors := [] |}
       /\ title_path_error (Components.form_title fd) = None
       /\ match editing with
          | Some b =>
              exists p',
                Components.handleSubmit editing fd p = Some (Ok p')
                /\ sent p'
                   = sent p ++ [ModifyBug (_id b) (Components.form_object fd)]
          | None =>
              if loading (seen p)
              then Components.handleSubmit editing fd p
                   = Some (Throw (JS.Error (lit "Request already in progress")))
              else exists p',
                     Components.handleSubmit editing fd p = Some (Ok p')
                     /\ sent p'
                        = sent p ++ [AddBug (Components.form_object fd)]
          end).
Proof.
  intros Hs Hp. split.
  - intros Hfail. unfold Components.handleSubmit. now rewrite Hfail.
  - intros Hpass.
    destruct (validate_passes fd Hpass) as (Et & El & Ed & Er).
    repeat apply conj.
    + rewrite (form_object_blocks fd Hs Hp). unfold title_messages.
      rewrite missing_text_blank. cbn [as_string].
      now rewrite Et, El, Ed, Er.
    + unfold title_path_error. unfold Components.blank in Et.
      apply Z.ltb_ge in El.
      pose proof (trim_length (Components.form_title fd)) as Hle.
      destruct (Z.eqb_spec (str_length (trim (Components.form_title fd))) 0)
        as [Hz|_].
      { unfold str_length in Hz.
        assert (trim (Components.form_title fd) = []) as E
            by (apply length_zero_iff_nil; lia).
        rewrite E in Et. discriminate Et. }
      destruct (Z.ltb_spec 200 (str_length (trim (Components.form_title fd))));
        [lia|reflexivity].
    + unfold Components.handleSubmit. rewrite Hpass. cbn [negb].
      destruct editing as [b|].
      * eexists. split; reflexivity.
      * unfold createBug. destruct (loading (seen p)); [reflexivity|].
        eexists. split; reflexivity.
Qed.

Lemma form_submits_only_accepted_bodies_witness :
  validateBugData (Components.form_object login_form)
  = Ok {| valid := true; errors := [] |}
  /\ (exists p',
        Components.handleSubmit None login_form idle = Some (Ok p')
        /\ sent p' = sent idle ++ [AddBug (Components.form_object login_form)])
  /\ Components.handleSubmit None login_form creating
     = Some (Throw (JS.Error (lit "Request already in progress")))
  /\ Components.handleSubmit None Components.empty_form idle = None.
Proof.
  pose proof (@form_submits_only_accepted_bodies None login_form idle
                eq_refl eq_refl) as [_ Hidle].
  pose proof (@form_submits_only_accepted_bodies None login_form creating
                eq_refl eq_refl) as [_ Hbusy].
  pose proof (@form_submits_only_accepted_bodies None Components.empty_form
                idle eq_refl eq_refl) as [Hempty _].
  destruct (Hidle eq_refl) as (Hvalid & _ & Hsend).
  destruct (Hbusy eq_refl) as (_ & _ & Hthrow).
  repeat apply conj.
  - exact Hvalid.
  - exact Hsend.
  - exact Hthrow.
  - apply Hempty. reflexivity.
Defined.

(** A change of one select of [BugList], made on a provider whose last
    render is up to date: the next render sends exactly one fetch,
    carrying the new filter object; the select shows the value chosen
    (the empty value clears the filter); the other two filters are as
    they were; and [clearFilters] leaves no parameter to send. *)
Theorem filter_change_reloads_once (p : provider) (fresh : nat)
  (t : Components.filterType) (value : jstring) :
  committed p ->
  fresh <> ref (filters (now p)) ->
  let chosen :=
    Components.handleFilterChange fresh (filters (seen p)) t value in
  sent (render (updateFilters chosen p)) = sent p ++ [FetchBugs chosen]
  /\ Components.shown (selection t chosen) = value
  /\ (forall other, other <> t ->
         selection other chosen = selection other (filters (seen p)))
  /\ BugService.query_params (Components.clearFilters fresh) = [].
Proof.
  intros Hc Hfresh chosen.
  assert (ref chosen = fresh) as Href by (destruct t; reflexivity).
  repeat apply conj.
  - rewrite render_after_change; [reflexivity|].
    cbn [updateFilters setFilters now memo filters].
    rewrite Hc, Href. intros H. injection H as H. congruence.
  - subst chosen. unfold Components.handleFilterChange.
    destruct t; cbn [selection f_status f_priority f_sort];
      destruct value as [|c rest]; reflexivity.
  - intros other Ho. subst chosen.
    destruct t, other; try contradiction; reflexivity.
  - reflexivity.
Qed.

Lemma filter_change_reloads_once_witness :
  sent (render (updateFilters
                  (Components.handleFilterChange 1 (filters (seen mounted))
                     Components.ByStatus (lit "open"))
                  mounted))
  = sent mounted
    ++ [FetchBugs (Components.handleFilterChange 1 (filters (seen mounted))
                     Components.ByStatus (lit "open"))].
Proof.
  apply (@filter_change_reloads_once mounted 1 Components.ByStatus
           (lit "open")).
  - reflexivity.
  - vm_compute. discriminate.
Defined.
